(** * Daimon: session watcher and quick-check risk heuristic

    A shallow embedding of [collectors/claude_watcher.py],
    [endpoints/constants.py] and [endpoints/quick_check.py], followed by the
    properties of the offset ledger, the keyword classifiers and the event
    dispatch.

    Conventions.
    - A Python [str] is represented by its UTF-8 encoding, a [string] of
      bytes.  Every keyword of the source is ASCII, so the [in] operator on
      code points coincides with containment on the encodings.  A file is
      its bytes; reading it as text decodes them and fails on bytes that
      are not UTF-8.
    - A Python [float] is a binary64 [float]; a Python [int] is a [Z].
    - Functions of the Python standard library whose behaviour is given by
      Unicode tables or by another package ([str.lower], [str.strip],
      [json.loads], [re.findall], the iteration order of a [set]) are the
      fields of the class [PyLib]; the code of the repository is written
      against that interface and [ascii_pylib] implements it for running
      examples. *)

From Stdlib Require Import Floats ZArith Lia Ascii.
From stdpp Require Import gmap strings list.

Set Warnings "-inexact-float,-register-all".
Local Open Scope Z_scope.

(** ** Python values and builtins *)

Module Py.

(** Exception classes that the embedded code raises or handles. *)
Inductive exn : Type :=
| ImportError
| AttributeError
| JSONDecodeError
| OSError
| UnicodeDecodeError
| RecursionError
| ValueError
| ValidationError
| TimeoutException
| ConnectError
| OtherException (name : string)
| CancelledError
| KeyboardInterrupt.

(** [except Exception]: every class above except the two that derive from
    [BaseException] only.  [ValueError] stands for a [ValueError] that is of
    neither of its subclasses [JSONDecodeError] and [UnicodeDecodeError],
    and [OSError] for the class with its subclasses ([FileNotFoundError],
    [PermissionError], [NotADirectoryError], ...). *)
Definition is_Exception (e : exn) : bool :=
  match e with
  | CancelledError | KeyboardInterrupt => false
  | _ => true
  end.

Definition is_ImportError (e : exn) : bool :=
  match e with ImportError => true | _ => false end.

Definition is_JSONDecodeError (e : exn) : bool :=
  match e with JSONDecodeError => true | _ => false end.

(** [except (IOError, OSError)]; [IOError] is an alias of [OSError]. *)
Definition is_OSError (e : exn) : bool :=
  match e with OSError => true | _ => false end.

(** The result of running a piece of Python: a value or a raised exception. *)
Inductive outcome (A : Type) : Type :=
| Normal (a : A)
| Raised (e : exn).
Arguments Normal {A} a.
Arguments Raised {A} e.

(** Values produced by [json.loads] and accepted by [json=] of a request. *)
Inductive json : Type :=
| JNull
| JBool (b : bool)
| JInt (n : Z)
| JFloat (f : float)
| JStr (s : string)
| JList (l : list json)
| JDict (d : list (string * json)).

(** A [dict] with [str] keys, in insertion order. *)
Abbreviation dict := (list (string * json)).

(** [d.get(key, default)] on a dict. *)
Fixpoint dict_get (key : string) (d : dict) (default : json) : json :=
  match d with
  | [] => default
  | (k, v) :: d' => if String.eqb k key then v else dict_get key d' default
  end.

(** Truth value of an object, as tested by [if not x]. *)
Definition truthy (v : json) : bool :=
  match v with
  | JNull => false
  | JBool b => b
  | JInt n => negb (n =? 0)
  | JFloat f => negb (PrimFloat.eqb f 0%float)
  | JStr s => negb (String.eqb s "")
  | JList l => match l with [] => false | _ => true end
  | JDict d => match d with [] => false | _ => true end
  end.

(** [x != "user"] for an arbitrary object [x]. *)
Definition json_is_str (v : json) (s : string) : bool :=
  match v with
  | JStr s' => String.eqb s' s
  | _ => false
  end.

(** [sub in s] on strings. *)
Fixpoint str_contains (sub s : string) : bool :=
  String.prefix sub s ||
  match s with
  | EmptyString => false
  | String _ s' => str_contains sub s'
  end.

(** [max(a, b)]: the first argument unless the second is strictly greater. *)
Definition py_max (a b : float) : float :=
  if PrimFloat.ltb a b then b else a.

(** [sep.join(parts)]. *)
Fixpoint str_join (sep : string) (parts : list string) : string :=
  match parts with
  | [] => ""
  | [p] => p
  | p :: rest => p +:+ sep +:+ str_join sep rest
  end.

(** A byte between two codes. *)
Definition byte_in (lo hi : nat) (c : ascii) : bool :=
  Nat.leb lo (nat_of_ascii c) && Nat.leb (nat_of_ascii c) hi.

(** The second byte of a sequence of three or of four: the ranges that
    exclude over-long forms, surrogates and code points above U+10FFFF. *)
Definition second_of_three (b0 b1 : ascii) : bool :=
  if Nat.eqb (nat_of_ascii b0) 224 then byte_in 160 191 b1
  else if Nat.eqb (nat_of_ascii b0) 237 then byte_in 128 159 b1
  else byte_in 128 191 b1.

Definition second_of_four (b0 b1 : ascii) : bool :=
  if Nat.eqb (nat_of_ascii b0) 240 then byte_in 144 191 b1
  else if Nat.eqb (nat_of_ascii b0) 244 then byte_in 128 143 b1
  else byte_in 128 191 b1.

(** The bytes that [bytes.decode("utf-8")], and a text file opened with
    [encoding="utf-8"], decode without [UnicodeDecodeError]: well-formed
    sequences of one to four bytes. *)
Fixpoint utf8_valid (s : string) : bool :=
  match s with
  | EmptyString => true
  | String b0 s1 =>
      if byte_in 0 127 b0 then utf8_valid s1
      else if byte_in 194 223 b0 then
        match s1 with
        | String b1 s2 => byte_in 128 191 b1 && utf8_valid s2
        | _ => false
        end
      else if byte_in 224 239 b0 then
        match s1 with
        | String b1 (String b2 s3) =>
            second_of_three b0 b1 && byte_in 128 191 b2 && utf8_valid s3
        | _ => false
        end
      else if byte_in 240 244 b0 then
        match s1 with
        | String b1 (String b2 (String b3 s4)) =>
            second_of_four b0 b1 && byte_in 128 191 b2 && byte_in 128 191 b3
            && utf8_valid s4
        | _ => false
        end
      else false
  end.

(** [len(s)] of a [str]: the number of code points, that is, of the bytes
    of its encoding that do not continue a sequence. *)
Fixpoint str_len (s : string) : nat :=
  match s with
  | EmptyString => O
  | String c s' => if byte_in 128 191 c then str_len s' else S (str_len s')
  end.

(** The part of the Python runtime the repository calls into. *)
Class PyLib : Type := {
  (** [s.lower()] *)
  str_lower : string → string;
  (** [s.strip()] *)
  str_strip : string → string;
  (** [json.loads(s)]: the value, or the exception raised:
      [JSONDecodeError] for a text that is not JSON, and others for a text
      the parser gives up on ([RecursionError] for deep nesting,
      [ValueError] for an integer of too many digits). *)
  json_loads : string → outcome json;
  (** [json.loads] computes on its argument and does no input or output:
      what it raises is below [Exception] and is no [OSError]. *)
  json_loads_raises : ∀ s e,
    json_loads s = Raised e → is_Exception e = true ∧ is_OSError e = false;
  (** [re.findall(pattern, s)] for a pattern with one group. *)
  re_findall : string → string → list string;
  (** [list(set(xs))]: the elements of [xs], each once, in an order the
      language does not fix. *)
  list_of_set : list string → list string;
  list_of_set_NoDup : ∀ xs, NoDup (list_of_set xs);
  list_of_set_elem : ∀ xs x, x ∈ list_of_set xs ↔ x ∈ xs;
}.

End Py.
Export Py.

(** ** endpoints/constants.py *)

Module constants.

Definition HIGH_RISK_KEYWORDS : list string :=
  [ "delete"; "drop"; "rm -rf"; "truncate"; "production"; "destroy";
    "wipe"; "purge"; "credential"; "secret"; "password" ].

Definition MEDIUM_RISK_KEYWORDS : list string :=
  [ "refactor"; "migrate"; "architecture"; "auth"; "security"; "payment";
    "deploy"; "database"; "schema"; "api" ].

End constants.

(** ** endpoints/quick_check.py *)

Module quick_check.
Import constants.

Record QuickCheckResponse : Type := {
  salience : float;
  should_emerge : bool;
  mode : string;
  emergence_reason : option string;
  detected_keywords : list string;
}.

(** Construction of the pydantic model: [salience] is declared with
    [ge=0.0, le=1.0]; a value outside raises a validation error. *)
Definition QuickCheckResponse_new
    (salience : float) (should_emerge : bool) (mode : string)
    (emergence_reason : option string) (detected_keywords : list string)
  : outcome QuickCheckResponse :=
  if PrimFloat.leb 0%float salience && PrimFloat.leb salience 1%float then
    Normal {| salience := salience;
              should_emerge := should_emerge;
              mode := mode;
              emergence_reason := emergence_reason;
              detected_keywords := detected_keywords |}
  else Raised ValidationError.

(** Body of the two keyword loops: on a hit, raise the salience to at least
    [level] and append the keyword. *)
Definition scan_step (text : string) (level : float)
    (st : float * list string) (keyword : string) : float * list string :=
  let '(salience, detected) := st in
  if str_contains keyword text
  then (py_max salience level, detected ++ [keyword])
  else (salience, detected).

Definition scan_keywords (text : string) (level : float)
    (keywords : list string) (st : float * list string)
  : float * list string :=
  fold_left (scan_step text level) keywords st.

Section with_pylib.
Context `{PyLib}.

Definition analyze_prompt (prompt : string) : outcome QuickCheckResponse :=
  let prompt_lower := str_lower prompt in
  let detected : list string := [] in
  let salience := 0.1%float in
  (* high-risk keywords *)
  let '(salience, detected) :=
    scan_keywords prompt_lower 0.9%float HIGH_RISK_KEYWORDS
      (salience, detected) in
  (* medium-risk keywords, if no high-risk keyword was found *)
  let '(salience, detected) :=
    if PrimFloat.ltb salience 0.9%float
    then scan_keywords prompt_lower 0.6%float MEDIUM_RISK_KEYWORDS
           (salience, detected)
    else (salience, detected) in
  let '(mode, should_emerge) :=
    if PrimFloat.leb 0.85%float salience then ("emerge", true)
    else if PrimFloat.leb 0.5%float salience then ("subtle", false)
    else ("silent", false) in
  let reason : option string :=
    match detected with
    | [] => None
    | _ => Some ("Detected: " +:+ str_join ", " (take 3 detected))
    end in
  QuickCheckResponse_new salience should_emerge mode reason detected.

End with_pylib.

(** The response has no tier field.  The specification names the three
    salience bands of the mode decision; this definition follows the
    specification's wording so that a statement about the tier can be set
    against the mode the source computes. *)
Inductive RiskTier : Type := TierHigh | TierMedium | TierLow.

Definition spec_risk_tier (salience : float) : RiskTier :=
  if PrimFloat.leb 0.85%float salience then TierHigh
  else if PrimFloat.leb 0.5%float salience then TierMedium
  else TierLow.

End quick_check.

(** ** collectors/claude_watcher.py *)

Module claude_watcher.

(** The dict literal [INTENT_PATTERNS]; a dict iterates in insertion order. *)
Definition INTENT_PATTERNS : list (string * list string) :=
  [ ("create", ["create"; "add"; "implement"; "build"; "make"; "generate"; "write"]);
    ("fix", ["fix"; "bug"; "error"; "broken"; "issue"; "problem"; "crash"]);
    ("refactor", ["refactor"; "clean"; "reorganize"; "restructure"; "improve"]);
    ("understand", ["explain"; "what"; "how"; "why"; "understand"; "help me"]);
    ("delete", ["delete"; "remove"; "drop"; "destroy"; "clean up"]);
    ("test", ["test"; "verify"; "check"; "validate"; "coverage"]);
    ("deploy", ["deploy"; "release"; "production"; "publish"; "ship"]) ].

(** Inner loop of [detect_intention]: does some keyword of the list, tried
    in list order, occur in the text. *)
Fixpoint any_keyword_in (keywords : list string) (text : string) : bool :=
  match keywords with
  | [] => false
  | keyword :: rest =>
      if str_contains keyword text then true else any_keyword_in rest text
  end.

(** Outer loop of [detect_intention], with its [return intent] on the first
    hit and [return "unknown"] after the loop. *)
Fixpoint scan_patterns (patterns : list (string * list string))
    (text : string) : string :=
  match patterns with
  | [] => "unknown"
  | (intent, keywords) :: rest =>
      if any_keyword_in keywords text then intent
      else scan_patterns rest text
  end.

(** The characters [dq] (double quote), used to spell the first pattern. *)
Definition dq : string := String "034"%char "".

(** The two regular expressions of [extract_files_touched]. *)
Definition QUOTED_PATH_PATTERN : string :=
  "['" +:+ dq +:+ "`]([^'" +:+ dq +:+ "`]+\.[a-zA-Z]{2,4})['" +:+ dq +:+ "`]".

Definition UNQUOTED_PATH_PATTERN : string :=
  "(\S+\.[a-zA-Z]{2,4})\b".

(** An outbound event is a dict. *)
Abbreviation event := dict.

(** [SessionTracker]: the attributes set by [__init__]. *)
Record SessionTracker : Type := {
  positions : gmap string Z;
  session_events : list event;
}.

(** [SessionTracker()]. *)
Definition SessionTracker_init : SessionTracker :=
  {| positions := ∅; session_events := [] |}.

(** What a scan pass observes of one file: its bytes, when it is there. *)
Inductive file_state : Type :=
| Absent                                    (* [stat] raises [OSError] *)
| Present (content : string) (readable : bool).
                          (* [open], or the read, raises [OSError] when not readable *)

(** What a scan finds under the projects directory: nothing when the
    directory does not exist; otherwise the session files that the walk
    ([iterdir], [is_dir], [exists], [glob]) yields, each with its path and
    the name of its project, and whether the walk, after yielding them,
    ends with an [OSError] (a directory that cannot be listed, a path that
    is not a directory). *)
Inductive listing : Type :=
| NoDirectory
| Listed (files : list (file_state * string * string)) (walk_fails : bool).

(** The observable steps of a scan pass, recorded in program order. *)
Inductive effect : Type :=
| EvRead (file_path : string) (start stop : Z)
    (* [f.seek(start); f.readlines()] returned, having read up to [stop] *)
| EvCommit (file_path : string) (pos : Z)
    (* [self.positions[file_path] = pos] *)
| EvParse (line : string)
    (* [json.loads(line)] *)
| EvClassify (content : string)
    (* [detect_intention(content)] *)
| EvPost (ev : event)
    (* [client.post(..., json=ev)] *)
| EvWarn (file_path : string).
    (* [logger.warning("Error reading ...")] *)

(** What the remote call of [_send_event] meets. *)
Inductive net_result : Type :=
| NoHttpx                    (* [import httpx] raises [ImportError] *)
| Responds (status : Z)      (* [post] returns a response with this status *)
| Fails (e : exn).           (* [post] raises [e] *)

(** The surroundings of the process: the clock and the network. *)
Record Env : Type := {
  (** [datetime.now().isoformat()] at the [k]-th call *)
  now_isoformat : nat → string;
  (** the fate of the [k]-th call of [_send_event] *)
  transport : nat → net_result;
}.

(** The state a run threads: the tracker object, how often the clock and
    the network were used, and the steps taken so far. *)
Record world : Type := {
  tracker : SessionTracker;
  clock_reads : nat;
  requests : nat;
  trace : list effect;
}.

(** The state of a process just started ([run_daemon] creates the tracker). *)
Definition world_init : world :=
  {| tracker := SessionTracker_init; clock_reads := 0; requests := 0;
     trace := [] |}.

(** Stateful computations that may raise; the state survives a raise. *)
Definition M (A : Type) : Type := world → outcome A * world.

Definition ret {A} (a : A) : M A := fun w => (Normal a, w).

Definition bind {A B} (m : M A) (k : A → M B) : M B :=
  fun w =>
    match m w with
    | (Normal a, w') => k a w'
    | (Raised e, w') => (Raised e, w')
    end.

Definition raise {A} (e : exn) : M A := fun w => (Raised e, w).

(** [try: m  except <handles>: h]. *)
Definition try_except {A} (m : M A) (handles : exn → bool) (h : M A) : M A :=
  fun w =>
    match m w with
    | (Normal a, w') => (Normal a, w')
    | (Raised e, w') => if handles e then h w' else (Raised e, w')
    end.

Notation "'let*' x ':=' m 'in' k" := (bind m (fun x => k))
  (at level 10, x pattern, m at level 100, k at level 200).
Notation "m ';;' k" := (bind m (fun _ => k))
  (at level 100, k at level 200, right associativity).

Definition emit (e : effect) : M unit :=
  fun w =>
    (Normal (),
     {| tracker := tracker w; clock_reads := clock_reads w;
        requests := requests w; trace := trace w ++ [e] |}).

Definition get_tracker : M SessionTracker := fun w => (Normal (tracker w), w).

Definition put_tracker (t : SessionTracker) : M unit :=
  fun w =>
    (Normal (),
     {| tracker := t; clock_reads := clock_reads w;
        requests := requests w; trace := trace w |}).

(** A [for] loop without [break]. *)
Fixpoint for_each {A} (xs : list A) (body : A → M unit) : M unit :=
  match xs with
  | [] => ret ()
  | x :: xs' => body x ;; for_each xs' body
  end.

(** [s[n:]] on the bytes of a file. *)
Fixpoint str_drop (n : nat) (s : string) : string :=
  match n, s with
  | O, _ => s
  | S n', String _ s' => str_drop n' s'
  | S _, EmptyString => EmptyString
  end.

(** [f.readlines()] of a text-mode file with universal newlines: the text is
    cut after every line end, and a line end (LF, CR LF or CR) reads as LF.
    [line] is the part of the current line read so far. *)
Fixpoint readlines_from (line : string) (s : string) : list string :=
  match s with
  | EmptyString => if String.eqb line "" then [] else [line]
  | String c rest =>
      if Ascii.eqb c "010"%char then
        (line +:+ String "010"%char "") :: readlines_from "" rest
      else if Ascii.eqb c "013"%char then
        match rest with
        | String c' rest' =>
            if Ascii.eqb c' "010"%char
            then (line +:+ String "010"%char "") :: readlines_from "" rest'
            else (line +:+ String "010"%char "") :: readlines_from "" rest
        | EmptyString => [line +:+ String "010"%char ""]
        end
      else readlines_from (line +:+ String c "") rest
  end.

Definition readlines (s : string) : list string := readlines_from "" s.

Section with_pylib.
Context `{PyLib} (env : Env).

Definition detect_intention (message : string) : string :=
  let message_lower := str_lower message in
  scan_patterns INTENT_PATTERNS message_lower.

Definition extract_files_touched (message : string) : list string :=
  let patterns := [QUOTED_PATH_PATTERN; UNQUOTED_PATH_PATTERN] in
  let files :=
    fold_left (fun files pattern => files ++ re_findall pattern message)
      patterns [] in
  take 10
    (list_of_set
       (filter (fun f => str_contains "/" f || str_contains "." f) files)).

(** [SessionTracker._send_event]. *)
Definition _send_event (ev : event) : M unit :=
  try_except
    (try_except
       (fun w =>
          let w' := {| tracker := tracker w; clock_reads := clock_reads w;
                       requests := S (requests w); trace := trace w |} in
          match transport env (requests w) with
          | NoHttpx => raise ImportError w'
          | Responds _ => emit (EvPost ev) w'
          | Fails e => (emit (EvPost ev) ;; raise e) w'
          end)
       is_ImportError (ret ()))
    is_Exception (ret ()).

(** [entry.get(key, default)]: only a dict has the method. *)
Definition entry_get (entry : json) (key : string) (default : json) : M json :=
  match entry with
  | JDict d => ret (dict_get key d default)
  | _ => raise AttributeError
  end.

(** [SessionTracker._process_entry]. *)
Definition _process_entry (entry : json) (project : string) : M unit :=
  let* role := entry_get entry "role" (JStr "") in
  if negb (json_is_str role "user") then ret () else
  let* content := entry_get entry "content" (JStr "") in
  if negb (truthy content) then ret () else
  match content with
  | JStr content =>
      emit (EvClassify content) ;;
      let intention := detect_intention content in
      let files_touched := extract_files_touched content in
      fun w =>
        let timestamp := now_isoformat env (clock_reads w) in
        let ev : event :=
          [ ("event_type", JStr intention);
            ("timestamp", JStr timestamp);
            ("project", JStr project);
            ("files_touched", JList (JStr <$> files_touched));
            ("intention", JStr intention) ] in
        let w' :=
          {| tracker :=
               {| positions := positions (tracker w);
                  session_events := session_events (tracker w) ++ [ev] |};
             clock_reads := S (clock_reads w);
             requests := requests w;
             trace := trace w |} in
        _send_event ev w'
  | _ => raise AttributeError          (* [message.lower()] on a non-string *)
  end.

(** Body of the loop over the lines just read. *)
Definition process_line (project : string) (line : string) : M unit :=
  let line := str_strip line in
  if String.eqb line "" then ret () else
  try_except
    (emit (EvParse line) ;;
     match json_loads line with
     | Normal entry => _process_entry entry project
     | Raised e => raise e
     end)
    is_JSONDecodeError (ret ()).

(** [SessionTracker._process_file], given what the pass observes of the
    file.  The file is one snapshot for the whole call: [stat] and the read
    see the same content, and [f.tell()] after [readlines] is its size.
    [readlines] decodes the bytes from the checkpoint to the end and raises
    [UnicodeDecodeError] when they are not UTF-8; that is no [OSError], so
    it leaves the pass, before the checkpoint is written. *)
Definition _process_file (file : file_state) (file_path project : string)
  : M unit :=
  let* t := get_tracker in
  let current_pos := default 0 (positions t !! file_path) in
  try_except
    (match file with
     | Absent => raise OSError
     | Present content readable =>
         let file_size := Z.of_nat (String.length content) in
         if file_size <=? current_pos then ret () else
         if negb readable then raise OSError else
         let new_bytes := str_drop (Z.to_nat current_pos) content in
         if negb (utf8_valid new_bytes) then raise UnicodeDecodeError else
         let new_lines := readlines new_bytes in
         let tell := Z.of_nat (String.length content) in
         emit (EvRead file_path current_pos tell) ;;
         let* t := get_tracker in
         put_tracker {| positions := <[file_path := tell]> (positions t);
                        session_events := session_events t |} ;;
         emit (EvCommit file_path tell) ;;
         for_each new_lines (process_line project)
     end)
    is_OSError (emit (EvWarn file_path)).

(** [SessionTracker.scan_projects], given what the walk of the projects
    directory finds.  The walk is outside every [try]: the [OSError] that
    ends it leaves the scan. *)
Definition scan_projects (found : listing) : M unit :=
  match found with
  | NoDirectory => ret ()
  | Listed files walk_fails =>
      for_each files (fun '(file, file_path, project) =>
        _process_file file file_path project) ;;
      if walk_fails then raise OSError else ret ()
  end.

(** Successive passes over one file, one per observed snapshot, as made by
    the loop of [run_daemon]; an exception ends the loop. *)
Definition file_passes (snapshots : list file_state)
    (file_path project : string) : M unit :=
  for_each snapshots (fun file => _process_file file file_path project).

End with_pylib.

(** Projections of a world used in the statements. *)
Definition checkpoint (w : world) (file_path : string) : Z :=
  default 0 (positions (tracker w) !! file_path).

(** The byte ranges read from one file, in the order they were read. *)
Fixpoint read_ranges (file_path : string) (tr : list effect) : list (Z * Z) :=
  match tr with
  | [] => []
  | EvRead p start stop :: tr' =>
      if String.eqb p file_path
      then (start, stop) :: read_ranges file_path tr'
      else read_ranges file_path tr'
  | _ :: tr' => read_ranges file_path tr'
  end.

(** The checkpoints written for one file, in the order they were written. *)
Fixpoint commits (file_path : string) (tr : list effect) : list Z :=
  match tr with
  | [] => []
  | EvCommit p pos :: tr' =>
      if String.eqb p file_path
      then pos :: commits file_path tr'
      else commits file_path tr'
  | _ :: tr' => commits file_path tr'
  end.

End claude_watcher.

(** ** An implementation of the runtime interface for ASCII text

    Enough of [str], [json] and [re] to run the embedded code on ASCII
    input: case mapping and white space restricted to ASCII, a reader for
    the part of JSON without [\u] escapes and without numbers that have a
    fraction or an exponent (a text that uses them is rejected), and a
    backtracking matcher for the two patterns of [extract_files_touched].
    The properties below are proved for every runtime, not for this one. *)

Module ascii_runtime.
Import claude_watcher.

Definition code (c : ascii) : nat := nat_of_ascii c.

Definition between (lo hi : nat) (c : ascii) : bool :=
  (Nat.leb lo (code c) && Nat.leb (code c) hi)%bool.

Definition is_upper : ascii → bool := between 65 90.
Definition is_alpha (c : ascii) : bool := between 65 90 c || between 97 122 c.
Definition is_digit : ascii → bool := between 48 57.
Definition is_word (c : ascii) : bool :=
  is_alpha c || is_digit c || Ascii.eqb c "_"%char.

(** ASCII characters for which [str.isspace] holds. *)
Definition is_space (c : ascii) : bool :=
  between 9 13 c || between 28 32 c.

Definition lower_char (c : ascii) : ascii :=
  if is_upper c then ascii_of_nat (code c + 32) else c.

Fixpoint lower (s : string) : string :=
  match s with
  | EmptyString => EmptyString
  | String c s' => String (lower_char c) (lower s')
  end.

Fixpoint lstrip (s : string) : string :=
  match s with
  | String c s' => if is_space c then lstrip s' else s
  | EmptyString => EmptyString
  end.

Definition strip (s : string) : string :=
  String.rev (lstrip (String.rev (lstrip s))).

(** *** A reader for JSON text *)

(** [d[k] = v]: a later binding of a key replaces the earlier one. *)
Fixpoint dict_set (k : string) (v : json) (d : dict) : dict :=
  match d with
  | [] => [(k, v)]
  | (k', v') :: d' =>
      if String.eqb k' k then (k', v) :: d' else (k', v') :: dict_set k v d'
  end.

(** The characters of a string literal after its opening quote. *)
Fixpoint read_string (s : string) : option (string * string) :=
  match s with
  | EmptyString => None
  | String c s' =>
      if Ascii.eqb c "034"%char then Some (EmptyString, s')
      else if Ascii.eqb c "\"%char then
        match s' with
        | String e s'' =>
            let unescaped :=
              if Ascii.eqb e "n"%char then Some "010"%char
              else if Ascii.eqb e "t"%char then Some "009"%char
              else if Ascii.eqb e "r"%char then Some "013"%char
              else if Ascii.eqb e "b"%char then Some "008"%char
              else if Ascii.eqb e "f"%char then Some "012"%char
              else if Ascii.eqb e "034"%char || Ascii.eqb e "\"%char
                      || Ascii.eqb e "/"%char then Some e
              else None in
            match unescaped, read_string s'' with
            | Some u, Some (body, rest) => Some (String u body, rest)
            | _, _ => None
            end
        | EmptyString => None
        end
      else if Nat.ltb (code c) 32 then None
      else
        match read_string s' with
        | Some (body, rest) => Some (String c body, rest)
        | None => None
        end
  end.

(** The digits at the head of a string, as a number, and what follows. *)
Fixpoint read_digits (acc : Z) (s : string) : Z * string :=
  match s with
  | String c s' =>
      if is_digit c
      then read_digits (10 * acc + Z.of_nat (code c - 48)) s'
      else (acc, s)
  | EmptyString => (acc, s)
  end.

(** An integer literal without sign: a single [0], or digits that do not
    begin with [0]. *)
Definition read_natural (s : string) : Z * string :=
  match s with
  | String c s' => if Ascii.eqb c "0"%char then (0, s') else read_digits 0 s
  | EmptyString => (0, s)
  end.

(** JSON white space: space, tab, line feed, carriage return. *)
Definition is_json_space (c : ascii) : bool :=
  Ascii.eqb c " "%char || Ascii.eqb c "009"%char
  || Ascii.eqb c "010"%char || Ascii.eqb c "013"%char.

Fixpoint skip_space (s : string) : string :=
  match s with
  | String c s' => if is_json_space c then skip_space s' else s
  | EmptyString => EmptyString
  end.

Definition read_literal (word : string) (v : json) (s : string)
  : option (json * string) :=
  if String.prefix word s
  then Some (v, str_drop (String.length word) s)
  else None.

(** One value at the head of the text; [fuel] bounds the nesting depth and
    the number of members read. *)
Fixpoint read_value (fuel : nat) (s : string) : option (json * string) :=
  match fuel with
  | O => None
  | S fuel' =>
      let read_elements :=
        fix read_elements (n : nat) (acc : list json) (s : string)
          : option (json * string) :=
          match n with
          | O => None
          | S n' =>
              match read_value fuel' s with
              | Some (v, rest) =>
                  match skip_space rest with
                  | String c rest' =>
                      if Ascii.eqb c ","%char
                      then read_elements n' (acc ++ [v]) rest'
                      else if Ascii.eqb c "]"%char
                      then Some (JList (acc ++ [v]), rest')
                      else None
                  | EmptyString => None
                  end
              | None => None
              end
          end in
      let read_members :=
        fix read_members (n : nat) (acc : dict) (s : string)
          : option (json * string) :=
          match n with
          | O => None
          | S n' =>
              match skip_space s with
              | String q s1 =>
                  if Ascii.eqb q "034"%char then
                    match read_string s1 with
                    | Some (key, s2) =>
                        match skip_space s2 with
                        | String colon s3 =>
                            if Ascii.eqb colon ":"%char then
                              match read_value fuel' s3 with
                              | Some (v, rest) =>
                                  match skip_space rest with
                                  | String c rest' =>
                                      if Ascii.eqb c ","%char
                                      then read_members n' (dict_set key v acc) rest'
                                      else if Ascii.eqb c "}"%char
                                      then Some (JDict (dict_set key v acc), rest')
                                      else None
                                  | EmptyString => None
                                  end
                              | None => None
                              end
                            else None
                        | EmptyString => None
                        end
                    | None => None
                    end
                  else None
              | EmptyString => None
              end
          end in
      match skip_space s with
      | EmptyString => None
      | String c s' =>
          if Ascii.eqb c "{"%char then
            match skip_space s' with
            | String c' s'' =>
                if Ascii.eqb c' "}"%char then Some (JDict [], s'')
                else read_members fuel' [] s'
            | EmptyString => None
            end
          else if Ascii.eqb c "["%char then
            match skip_space s' with
            | String c' s'' =>
                if Ascii.eqb c' "]"%char then Some (JList [], s'')
                else read_elements fuel' [] s'
            | EmptyString => None
            end
          else if Ascii.eqb c "034"%char then
            match read_string s' with
            | Some (body, rest) => Some (JStr body, rest)
            | None => None
            end
          else if Ascii.eqb c "-"%char then
            match s' with
            | String d _ =>
                if is_digit d
                then let '(n, rest) := read_natural s' in Some (JInt (- n), rest)
                else None
            | EmptyString => None
            end
          else if is_digit c then
            let '(n, rest) := read_natural (String c s') in Some (JInt n, rest)
          else
            match read_literal "true" (JBool true) (String c s') with
            | Some r => Some r
            | None =>
                match read_literal "false" (JBool false) (String c s') with
                | Some r => Some r
                | None => read_literal "null" JNull (String c s')
                end
            end
      end
  end.

(** A whole text holding one value; [None] when the text is not JSON. *)
Definition loads (s : string) : option json :=
  match read_value (S (String.length s)) s with
  | Some (v, rest) =>
      match skip_space rest with
      | EmptyString => Some v
      | String _ _ => None
      end
  | None => None
  end.

(** *** A backtracking matcher for sequences of repeated character classes *)

(** One item of a pattern: a character class repeated greedily between
    [min] and [max] times (no upper bound for [None]), the word boundary
    [\b], or a parenthesis of the group. *)
Inductive item : Type :=
| Class (member : ascii → bool) (min : nat) (max : option nat)
| WordBoundary
| GroupOpen
| GroupClose.

(** How many leading characters of [s] belong to the class, at most [cap]. *)
Fixpoint run_length (member : ascii → bool) (cap : nat) (s : string) : nat :=
  match cap, s with
  | S cap', String c s' => if member c then S (run_length member cap' s') else O
  | _, _ => O
  end.

(** The first of [f n], [f (n-1)], ..., [f min] that succeeds. *)
Fixpoint first_down {R} (n min : nat) (f : nat → option R) : option R :=
  if Nat.ltb n min then None else
  match f n with
  | Some r => Some r
  | None =>
      match n with
      | O => None
      | S n' => first_down n' min f
      end
  end.

(** The last character of a non-empty prefix of length [k] of [s], or
    [prev] when [k] is zero. *)
Fixpoint char_before (prev : option ascii) (k : nat) (s : string)
  : option ascii :=
  match k, s with
  | S k', String c s' => char_before (Some c) k' s'
  | _, _ => prev
  end.

Definition word_opt (c : option ascii) : bool :=
  match c with Some c => is_word c | None => false end.

Definition head_char (s : string) : option ascii :=
  match s with String c _ => Some c | EmptyString => None end.

(** Match the items at the head of [s]; [pos] is the number of characters
    of the match consumed so far, [prev] the character before [s], [gs] and
    [ge] the offsets of the group.  The result is the group's start and end
    and the end of the match, as offsets from the start of the match. *)
Fixpoint match_items (items : list item) (prev : option ascii) (s : string)
    (pos gs ge : nat) : option (nat * nat * nat) :=
  match items with
  | [] => Some (gs, ge, pos)
  | Class member min max :: items' =>
      let cap := match max with Some m => m | None => String.length s end in
      first_down (run_length member cap s) min (fun k =>
        match_items items' (char_before prev k s) (str_drop k s)
          (pos + k) gs ge)
  | WordBoundary :: items' =>
      if xorb (word_opt prev) (word_opt (head_char s))
      then match_items items' prev s pos gs ge
      else None
  | GroupOpen :: items' => match_items items' prev s pos pos ge
  | GroupClose :: items' => match_items items' prev s pos gs pos
  end.

Fixpoint str_take (n : nat) (s : string) : string :=
  match n, s with
  | S n', String c s' => String c (str_take n' s')
  | _, _ => EmptyString
  end.

(** [re.findall] for a pattern with one group: scan from the left, keep the
    group of every match, resume after the match. *)
Fixpoint findall_from (fuel : nat) (items : list item) (prev : option ascii)
    (s : string) : list string :=
  match fuel with
  | O => []
  | S fuel' =>
      match match_items items prev s 0 0 0 with
      | Some (gs, ge, stop) =>
          let found := str_take (ge - gs) (str_drop gs s) in
          let step := Nat.max stop 1 in
          match s with
          | EmptyString => [found]
          | String _ _ =>
              found :: findall_from fuel' items (char_before prev step s)
                         (str_drop step s)
          end
      | None =>
          match s with
          | EmptyString => []
          | String c s' => findall_from fuel' items (Some c) s'
          end
      end
  end.

Definition is_quote (c : ascii) : bool :=
  Ascii.eqb c "'"%char || Ascii.eqb c "034"%char || Ascii.eqb c "`"%char.

Definition is_dot (c : ascii) : bool := Ascii.eqb c "."%char.

(** The two patterns of [extract_files_touched], item by item. *)
Definition quoted_path_items : list item :=
  [ Class is_quote 1 (Some 1%nat); GroupOpen;
    Class (fun c => negb (is_quote c)) 1 None;
    Class is_dot 1 (Some 1%nat); Class is_alpha 2 (Some 4%nat);
    GroupClose; Class is_quote 1 (Some 1%nat) ].

Definition unquoted_path_items : list item :=
  [ GroupOpen;
    Class (fun c => negb (is_space c)) 1 None;
    Class is_dot 1 (Some 1%nat); Class is_alpha 2 (Some 4%nat);
    GroupClose; WordBoundary ].

Definition findall (pattern s : string) : list string :=
  if String.eqb pattern QUOTED_PATH_PATTERN
  then findall_from (S (String.length s)) quoted_path_items None s
  else if String.eqb pattern UNQUOTED_PATH_PATTERN
  then findall_from (S (String.length s)) unquoted_path_items None s
  else [].

(** [json.loads] on that reader.  The texts of the examples stay far from
    the limits of the parser, so the only exception is the one for a text
    that is not JSON. *)
Definition loads_outcome (s : string) : outcome json :=
  match loads s with
  | Some v => Normal v
  | None => Raised JSONDecodeError
  end.

Definition loads_outcome_raises (s : string) (e : exn) :
  loads_outcome s = Raised e → is_Exception e = true ∧ is_OSError e = false.
Proof.
  unfold loads_outcome. destruct (loads s); [discriminate|].
  by intros [= <-].
Qed.

(** The runtime for ASCII text.  A set lists its elements in the order of
    their first insertion. *)
#[export] Instance ascii_pylib : PyLib := {|
  str_lower := lower;
  str_strip := strip;
  json_loads := loads_outcome;
  json_loads_raises := loads_outcome_raises;
  re_findall := findall;
  list_of_set := remove_dups;
  list_of_set_NoDup := NoDup_remove_dups;
  list_of_set_elem := elem_of_remove_dups;
|}.

(** The same runtime with sets listed in the opposite order. *)
Definition reversed_pylib : PyLib := {|
  str_lower := lower;
  str_strip := strip;
  json_loads := loads_outcome;
  json_loads_raises := loads_outcome_raises;
  re_findall := findall;
  list_of_set := fun xs => reverse (remove_dups xs);
  list_of_set_NoDup := fun xs =>
    proj2 (NoDup_Permutation_proper _ _ (reverse_Permutation (remove_dups xs)))
      (NoDup_remove_dups xs);
  list_of_set_elem := fun xs x =>
    iff_trans (elem_of_reverse x (remove_dups xs)) (elem_of_remove_dups xs x);
|}.

(** *** The limit of the parser on the digits of an integer *)

Fixpoint all_digits (s : string) : bool :=
  match s with
  | EmptyString => true
  | String c s' => is_digit c && all_digits s'
  end.

(** A text that is one integer literal, without a leading zero, of more
    than 4300 digits: the default limit of [int] on the digits it converts,
    above which it raises [ValueError]. *)
Definition over_long_integer (s : string) : bool :=
  let digits :=
    match s with
    | String c s' => if Ascii.eqb c "-"%char then s' else s
    | EmptyString => s
    end in
  match digits with
  | String d _ =>
      between 49 57 d && all_digits digits
      && Nat.ltb 4300 (String.length digits)
  | EmptyString => false
  end.

Definition loads_limited (s : string) : outcome json :=
  if over_long_integer s then Raised ValueError else loads_outcome s.

Definition loads_limited_raises (s : string) (e : exn) :
  loads_limited s = Raised e → is_Exception e = true ∧ is_OSError e = false.
Proof.
  unfold loads_limited. destruct (over_long_integer s).
  - by intros [= <-].
  - apply loads_outcome_raises.
Qed.

(** The runtime for ASCII text with that limit on a text that is one
    integer. *)
Definition limited_pylib : PyLib := {|
  str_lower := lower;
  str_strip := strip;
  json_loads := loads_limited;
  json_loads_raises := loads_limited_raises;
  re_findall := findall;
  list_of_set := remove_dups;
  list_of_set_NoDup := NoDup_remove_dups;
  list_of_set_elem := elem_of_remove_dups;
|}.

End ascii_runtime.

(** ** collectors/claude_watcher.py: the daemon *)

Module daemon.
Import claude_watcher.

Definition is_CancelledError (e : exn) : bool :=
  match e with CancelledError => true | _ => false end.

Definition is_KeyboardInterrupt (e : exn) : bool :=
  match e with KeyboardInterrupt => true | _ => false end.

(** What one turn of the loop of [run_daemon] meets: the session files the
    scan finds, and the fate of [asyncio.sleep] after it, which returns
    ([None]) or raises, as it does when the task is cancelled. *)
Record turn : Type := {
  found : listing;
  sleep_raises : option exn;
}.

Section with_pylib.
Context `{PyLib} (env : Env).

(** The body of [while True] of [run_daemon], once per observed turn.  The
    loop has no exit of its own: [Normal] here means that the observed
    turns are used up and the loop goes on. *)
Fixpoint daemon_loop (turns : list turn) : M unit :=
  match turns with
  | [] => ret ()
  | t :: turns' =>
      scan_projects env (found t) ;;
      match sleep_raises t with
      | None => ret ()
      | Some e => raise e
      end ;;
      daemon_loop turns'
  end.

(** [run_daemon] over the observed turns: a new tracker, the loop, and
    [except asyncio.CancelledError].  [None] stands for a daemon that is
    still running after the last observed turn. *)
Definition run_daemon (turns : list turn) : option (outcome unit) * world :=
  match daemon_loop turns world_init with
  | (Normal _, w) => (None, w)
  | (Raised e, w) =>
      if is_CancelledError e then (Some (Normal ()), w)
      else (Some (Raised e), w)
  end.

(** [main]: with [--daemon], [asyncio.run(run_daemon())] under
    [except KeyboardInterrupt]; without, the usage text is printed. *)
Definition main (daemon_flag : bool) (turns : list turn)
  : option (outcome unit) :=
  if daemon_flag then
    match run_daemon turns with
    | (Some (Raised e), _) =>
        if is_KeyboardInterrupt e then Some (Normal ()) else Some (Raised e)
    | (r, _) => r
    end
  else Some (Normal ()).

End with_pylib.

End daemon.

(** ** endpoints/daimon_routes.py: the routes fed by the modules above *)

Module daimon_routes.
Import quick_check.

(** The request model of [endpoints/quick_check.py]. *)
Record QuickCheckRequest : Type := { prompt : string }.

(** Construction of the pydantic model, as the framework does it from the
    body of a request: [prompt] is declared with [min_length=1,
    max_length=10000], counted in characters; a text outside raises a
    validation error. *)
Definition QuickCheckRequest_new (prompt : string)
  : outcome QuickCheckRequest :=
  if (1 <=? Z.of_nat (str_len prompt))
     && (Z.of_nat (str_len prompt) <=? 10000)
  then Normal {| prompt := prompt |}
  else Raised ValidationError.

Section with_pylib.
Context `{PyLib}.

(** The handler of the route [/quick-check], and the handler built by
    [create_quick_check_endpoint]: both return [analyze_prompt] of the
    prompt of the request object. *)
Definition quick_check_route (request : QuickCheckRequest)
  : outcome QuickCheckResponse :=
  analyze_prompt (prompt request).

(** A call of the route with a body that holds [prompt]: the request object
    is built first, and the handler runs only when that succeeds; a
    validation error is what the framework answers with status 422. *)
Definition post_quick_check (prompt : string) : outcome QuickCheckResponse :=
  match QuickCheckRequest_new prompt with
  | Normal request => quick_check_route request
  | Raised e => Raised e
  end.

End with_pylib.

Record ClaudeEvent : Type := {
  event_type : string;
  timestamp : string;
  project : string;
  files_touched : list string;
  intention : string;
}.

Record ClaudeEventResponse : Type := {
  status : string;
  stored : bool;
}.

(** The route [/claude/event]. *)
Definition receive_claude_event (event : ClaudeEvent) : ClaudeEventResponse :=
  {| status := "ok"; stored := true |}.

(** A field declared [str]: the value of the key when it is a string, the
    default when the key is absent. *)
Definition str_field (d : dict) (key : string) (default : option string)
  : option string :=
  match dict_get key d JNull, bool_decide (key ∈ d.*1) with
  | JStr s, true => Some s
  | _, true => None
  | _, false => default
  end.

Fixpoint str_items (l : list json) : option (list string) :=
  match l with
  | [] => Some []
  | JStr s :: l' => cons s <$> str_items l'
  | _ :: _ => None
  end.

(** A field declared [List[str]]. *)
Definition str_list_field (d : dict) (key : string)
    (default : option (list string)) : option (list string) :=
  match dict_get key d JNull, bool_decide (key ∈ d.*1) with
  | JList l, true => str_items l
  | _, true => None
  | _, false => default
  end.

(** A request body read as the model [ClaudeEvent]: [event_type] and
    [timestamp] are required, the other fields have defaults.  [None] when
    a required field is missing or a field does not hold, as it stands, a
    value of the declared type (what the validation library makes of such
    a body is not modelled). *)
Definition ClaudeEvent_of_json (body : json) : option ClaudeEvent :=
  match body with
  | JDict d =>
      match str_field d "event_type" None, str_field d "timestamp" None,
            str_field d "project" (Some ""),
            str_list_field d "files_touched" (Some []),
            str_field d "intention" (Some "") with
      | Some et, Some ts, Some pr, Some fs, Some it =>
          Some {| event_type := et; timestamp := ts; project := pr;
                  files_touched := fs; intention := it |}
      | _, _, _, _, _ => None
      end
  | _ => None
  end.

End daimon_routes.

(** * Vocabulary of the statements *)

Import constants quick_check claude_watcher.

(** [k] occurs in [s] as a contiguous substring. *)
Definition substring_of (k s : string) : Prop :=
  ∃ pre post, s = pre +:+ k +:+ post.

(** The keywords of a list that occur in a text, in list order. *)
Definition hits (text : string) (keywords : list string) : list string :=
  filter (λ k, str_contains k text) keywords.

(** The three responses [analyze_prompt] can build. *)
Definition reason_of (detected : list string) : option string :=
  match detected with
  | [] => None
  | _ => Some ("Detected: " +:+ str_join ", " (take 3 detected))
  end.

Definition response (salience : float) (should_emerge : bool) (mode : string)
    (detected : list string) : QuickCheckResponse :=
  {| salience := salience; should_emerge := should_emerge; mode := mode;
     emergence_reason := reason_of detected;
     detected_keywords := detected |}.

(** Distinct float literals are different values. *)
Ltac float_neq :=
  let E := fresh in
  intros E;
  match type of E with
  | ?a = ?b =>
      assert (PrimFloat.eqb a b = PrimFloat.eqb b b) by (by rewrite E);
      discriminate
  end.

(** No keyword of the list occurs in the text. *)
Definition no_hit (text : string) (keywords : list string) : Prop :=
  Forall (λ k, ¬ substring_of k text) keywords.

(** What the two patterns find in a message, before the set is built. *)
Definition path_candidates `{PyLib} (message : string) : list string :=
  filter (λ f, str_contains "/" f || str_contains "." f)
    (re_findall QUOTED_PATH_PATTERN message ++
     re_findall UNQUOTED_PATH_PATTERN message).

(** The steps taken on a record: parsing, classifying, posting. *)
Definition is_record_effect (e : effect) : bool :=
  match e with
  | EvParse _ | EvClassify _ | EvPost _ => true
  | EvRead _ _ _ | EvCommit _ _ | EvWarn _ => false
  end.

(** A computation is [framed] when it leaves the checkpoints alone, only
    adds record steps to the trace, and never raises an [OSError]. *)
Definition framed {A} (m : M A) : Prop :=
  ∀ w, ∃ tr,
    trace (m w).2 = trace w ++ tr ∧
    Forall (λ e, is_record_effect e = true) tr ∧
    positions (tracker (m w).2) = positions (tracker w) ∧
    (∀ e, (m w).1 = Raised e → is_OSError e = false).

(** What [_send_event] does, in full: one request, at most one post,
    nothing raised unless the call raised outside [Exception]. *)
Definition send_outcome (r : net_result) : outcome unit :=
  match r with
  | Fails e => if is_Exception e then Normal () else Raised e
  | _ => Normal ()
  end.

Definition send_trace (r : net_result) (ev : event) : list effect :=
  match r with
  | NoHttpx => []
  | _ => [EvPost ev]
  end.

(** The event built from a message of a project at a given time. *)
Definition event_of `{PyLib} (content timestamp project : string) : event :=
  [ ("event_type", JStr (detect_intention content));
    ("timestamp", JStr timestamp);
    ("project", JStr project);
    ("files_touched", JList (JStr <$> extract_files_touched content));
    ("intention", JStr (detect_intention content)) ].

(** A parsed entry that is a user message with a non-empty text. *)
Definition user_record (entry : json) (content : string) : Prop :=
  ∃ d, entry = JDict d ∧
       dict_get "role" d (JStr "") = JStr "user" ∧
       dict_get "content" d (JStr "") = JStr content ∧
       content ≠ "".

(** The world after the event of a user message is recorded, before it is
    sent. *)
Definition recorded `{PyLib} env (content project : string) (w : world)
  : world :=
  {| tracker :=
       {| positions := positions (tracker w);
          session_events :=
            session_events (tracker w) ++
            [event_of content (now_isoformat env (clock_reads w)) project] |};
     clock_reads := S (clock_reads w);
     requests := requests w;
     trace := trace w ++ [EvClassify content] |}.

(** The world right after the new bytes were read and the checkpoint was
    written, before the first line is looked at. *)
Definition committed (file_path : string) (start stop : Z) (w : world)
  : world :=
  {| tracker :=
       {| positions := <[file_path := stop]> (positions (tracker w));
          session_events := session_events (tracker w) |};
     clock_reads := clock_reads w;
     requests := requests w;
     trace := (trace w ++ [EvRead file_path start stop])
              ++ [EvCommit file_path stop] |}.

(** The lines a pass reads: those after the checkpoint. *)
Definition new_lines (content : string) (start : Z) : list string :=
  readlines (str_drop (Z.to_nat start) content).

(** The bytes of a file from [start] on are UTF-8: a read from there
    decodes. *)
Definition decodable_from (start : Z) (content : string) : bool :=
  utf8_valid (str_drop (Z.to_nat start) content).


(** ** Sample inputs *)

Module samples.

Definition nl : string := String "010"%char "".

Definition quoted (s : string) : string := dq +:+ s +:+ dq.

(** One line of a session file: an object with a role and a text. *)
Definition message_line (role text : string) : string :=
  "{" +:+ quoted "role" +:+ ": " +:+ quoted role +:+ ", "
      +:+ quoted "content" +:+ ": " +:+ quoted text +:+ "}" +:+ nl.

(** A user message whose content is a list of blocks, not a string. *)
Definition blocks_line : string :=
  "{" +:+ quoted "role" +:+ ": " +:+ quoted "user" +:+ ", "
      +:+ quoted "content" +:+ ": [{" +:+ quoted "type" +:+ ": "
      +:+ quoted "text" +:+ "}]}" +:+ nl.

(** A line that is not JSON. *)
Definition broken_line : string := "{" +:+ quoted "role" +:+ ": " +:+ nl.

(** A user message written in Latin-1: the byte E9 of its text, followed by
    a quote, is not UTF-8. *)
Definition latin1_line : string :=
  message_line "user" ("Ouvre le caf" +:+ String "233"%char "").

(** [c * n]. *)
Fixpoint str_repeat (c : ascii) (n : nat) : string :=
  match n with
  | O => ""
  | S n' => String c (str_repeat c n')
  end.

(** A line that holds one integer of 4301 digits. *)
Definition long_integer_line : string := str_repeat "7"%char 4301 +:+ nl.

(** A clock and a network where calls succeed, fail, or find no client. *)
Definition demo_env : Env :=
  {| now_isoformat := λ k,
       nth k [ "2025-03-01T09:00:00.000001"; "2025-03-01T09:00:00.000213";
               "2025-03-01T09:00:05.004100"; "2025-03-01T09:00:05.004377" ]
             "2025-03-01T09:00:10.000000";
     transport := λ k,
       nth k [ Responds 200; Fails ConnectError; NoHttpx;
               Fails TimeoutException; Responds 503 ]
             (Fails (OtherException "ReadError")) |}.

Definition session_file : string := "/home/dev/.claude/projects/app/sessions/a.jsonl".

End samples.

Import samples.

(** A process that starts again: [run_daemon] builds a new
    [SessionTracker]; the tracker lived in memory only, so nothing of the
    old world is left. *)
Definition restart (w : world) : world := world_init.





(** A fate of the remote call that [except Exception] covers: an answer of
    any status, a missing client library, or an exception below
    [Exception] (time-out, connection error, ...). *)
Definition benign (r : net_result) : Prop :=
  ∀ e, r = Fails e → is_Exception e = true.

(** Two worlds with the same tracker and the same clock; the network may
    have answered differently. *)
Definition agree (w1 w2 : world) : Prop :=
  tracker w1 = tracker w2 ∧ clock_reads w1 = clock_reads w2.

(** Two computations that, from agreeing worlds, end the same way in
    agreeing worlds. *)
Definition similar {A} (m1 m2 : M A) : Prop :=
  ∀ w1 w2, agree w1 w2 →
    (m1 w1).1 = (m2 w2).1 ∧ agree (m1 w1).2 (m2 w2).2.

(** The same surroundings with a network on which every post succeeds. *)
Definition with_working_network (env : Env) : Env :=
  {| now_isoformat := now_isoformat env; transport := λ _, Responds 200 |}.

(** The payloads posted, in the order they were posted. *)
Fixpoint posted (tr : list effect) : list event :=
  match tr with
  | [] => []
  | EvPost ev :: tr' => ev :: posted tr'
  | _ :: tr' => posted tr'
  end.

(** An event without its time stamp. *)
Definition without_timestamp (ev : event) : event :=
  filter (λ kv, kv.1 ≠ "timestamp") ev.

(** A line that holds a user message with the given text. *)
Definition user_line `{PyLib} (line content : string) : Prop :=
  str_strip line ≠ "" ∧
  ∃ entry, json_loads (str_strip line) = Normal entry ∧
           user_record entry content.

(** A line that is not blank and is not JSON: [json.loads] rejects it with
    [JSONDecodeError]. *)
Definition malformed `{PyLib} (line : string) : Prop :=
  str_strip line ≠ "" ∧ json_loads (str_strip line) = Raised JSONDecodeError.

(** The world after [n] further uses of the clock and of the network, with
    further events recorded and further steps taken. *)
Definition advanced (w : world) (events : list event) (n : nat)
    (tr : list effect) : world :=
  {| tracker := {| positions := positions (tracker w);
                   session_events := session_events (tracker w) ++ events |};
     clock_reads := n + clock_reads w;
     requests := n + requests w;
     trace := trace w ++ tr |}.

(** ** Invariants of a scan *)

(** The tags [detect_intention] can return. *)
Definition INTENT_TAGS : list string := INTENT_PATTERNS.*1 ++ ["unknown"].

(** An event of the shape [_process_entry] builds: the five keys, the tag
    twice, at most ten distinct paths. *)
Definition well_formed_event (ev : event) : Prop :=
  ∃ tag timestamp project files,
    ev = [ ("event_type", JStr tag);
           ("timestamp", JStr timestamp);
           ("project", JStr project);
           ("files_touched", JList (JStr <$> files));
           ("intention", JStr tag) ] ∧
    tag ∈ INTENT_TAGS ∧ (length files ≤ 10)%nat ∧ NoDup files.

(** How a world may change while records are scanned: events are appended,
    each with one reading of the clock and one request; what is posted is
    taken, in order, from the appended events; checkpoints do not go
    down. *)
Definition grows (w w' : world) : Prop :=
  ∃ evs tr,
    session_events (tracker w') = session_events (tracker w) ++ evs ∧
    clock_reads w' = (length evs + clock_reads w)%nat ∧
    requests w' = (length evs + requests w)%nat ∧
    trace w' = trace w ++ tr ∧
    posted tr `sublist_of` evs ∧
    Forall well_formed_event evs ∧
    (∀ p, checkpoint w p ≤ checkpoint w' p).

Definition growing {A} (m : M A) : Prop := ∀ w, grows w (m w).2.

(** The exceptions that can leave the pass over a file:
    [UnicodeDecodeError], raised by the read on bytes that are not UTF-8;
    what [json.loads] raises other than [JSONDecodeError];
    [AttributeError], raised on a record that is not a user-message object;
    and what the post raises outside [Exception]. *)
Definition escapes `{PyLib} (env : Env) (e : exn) : Prop :=
  e = UnicodeDecodeError ∨
  (is_JSONDecodeError e = false ∧ ∃ line, json_loads line = Raised e) ∨
  e = AttributeError ∨
  (is_Exception e = false ∧ ∃ k, transport env k = Fails e).

(** The walk of the projects directory ended with an [OSError]. *)
Definition walk_failed (found : listing) : bool :=
  match found with
  | NoDirectory => false
  | Listed _ walk_fails => walk_fails
  end.

(** The exceptions that can leave a scan: those that leave the pass over a
    file, and the [OSError] of the walk. *)
Definition leaves_scan `{PyLib} (env : Env) (found : listing) (e : exn)
  : Prop :=
  escapes env e ∨ (e = OSError ∧ walk_failed found = true).


(** Every exception a computation raises satisfies [Q]. *)
Definition raises_only {A} (Q : exn → Prop) (m : M A) : Prop :=
  ∀ w e, (m w).1 = Raised e → Q e.

(** Two worlds that differ in the recorded steps only. *)
Definition same_state (w1 w2 : world) : Prop :=
  tracker w1 = tracker w2 ∧
  clock_reads w1 = clock_reads w2 ∧
  requests w1 = requests w2.

(** A computation whose result and state do not depend on the steps
    recorded before. *)
Definition trace_blind {A} (m : M A) : Prop :=
  ∀ w1 w2, same_state w1 w2 →
    (m w1).1 = (m w2).1 ∧ same_state (m w1).2 (m w2).2.

(** A file a pass can read. *)
Definition available (file : file_state) : bool :=
  match file with
  | Present _ true => true
  | _ => false
  end.

(** ** Kinds of lines *)

(** A line with nothing but white space. *)
Definition blank_line `{PyLib} (line : string) : Prop :=
  str_strip line = "".

(** A line that holds an object which is not a user message with a text:
    its role is not "user", or its content is missing or empty. *)
Definition ignored_line `{PyLib} (line : string) : Prop :=
  str_strip line ≠ "" ∧
  ∃ d, json_loads (str_strip line) = Normal (JDict d) ∧
       (json_is_str (dict_get "role" d (JStr "")) "user" = false ∨
        truthy (dict_get "content" d (JStr "")) = false).

(** A line that yields no event. *)
Definition quiet_line `{PyLib} (line : string) : Prop :=
  blank_line line ∨ malformed line ∨ ignored_line line.

(** What a line says: the text of a user message, or nothing. *)
Definition line_says `{PyLib} (line : string) (said : option string) : Prop :=
  match said with
  | Some content => user_line line content
  | None => quiet_line line
  end.

(** A value [_process_entry] cannot handle: it is not an object, or it is
    a user message whose content is neither empty nor a string. *)
Definition crash_entry (entry : json) : Prop :=
  match entry with
  | JDict d =>
      json_is_str (dict_get "role" d (JStr "")) "user" = true ∧
      truthy (dict_get "content" d (JStr "")) = true ∧
      ∀ content, dict_get "content" d (JStr "") ≠ JStr content
  | _ => True
  end.

(** A line that parses to such a value. *)
Definition crash_line `{PyLib} (line : string) : Prop :=
  str_strip line ≠ "" ∧
  ∃ entry, json_loads (str_strip line) = Normal entry ∧ crash_entry entry.

(** A line on which [json.loads] raises [e], which is not
    [JSONDecodeError]. *)
Definition unparsed_line `{PyLib} (line : string) (e : exn) : Prop :=
  str_strip line ≠ "" ∧
  json_loads (str_strip line) = Raised e ∧
  is_JSONDecodeError e = false.

(** The events of a sequence of messages, the first one stamped at the
    [k]-th reading of the clock. *)
Fixpoint events_from `{PyLib} (env : Env) (project : string) (k : nat)
    (contents : list string) : list event :=
  match contents with
  | [] => []
  | content :: rest =>
      event_of content (now_isoformat env k) project
      :: events_from env project (S k) rest
  end.

(** The texts among what the lines say. *)
Definition texts (said : list (option string)) : list string :=
  omap id said.

(** ** Ends of the daemon *)

(** Some sleep of the observed turns raised [e]. *)
Definition sleep_raised (turns : list daemon.turn) (e : exn) : Prop :=
  ∃ t, t ∈ turns ∧ daemon.sleep_raises t = Some e.

(** The walk of some scan of the observed turns failed. *)
Definition walk_failed_in (turns : list daemon.turn) : Prop :=
  ∃ t, t ∈ turns ∧ walk_failed (daemon.found t) = true.

(** A cancellation was delivered, during a sleep or during a post. *)
Definition cancelled (env : Env) (turns : list daemon.turn) : Prop :=
  sleep_raised turns CancelledError ∨
  ∃ k, transport env k = Fails CancelledError.

(** ** Lines cut in two *)

(** A text without a line end. *)
Fixpoint single_line (s : string) : bool :=
  match s with
  | EmptyString => true
  | String c s' =>
      negb (Ascii.eqb c "010"%char) && negb (Ascii.eqb c "013"%char)
      && single_line s'
  end.

(** * Properties *)

(** ** Substrings *)

Lemma append_cons (c : ascii) (s t : string) :
  String c s +:+ t = String c (s +:+ t).
Proof. reflexivity. Qed.

Lemma prefix_spec (p s : string) :
  String.prefix p s = true ↔ ∃ post, s = p +:+ post.
Proof.
  revert s; induction p as [|c p IH]; intros s.
  - split; [intros _; exists s; reflexivity | by destruct s].
  - destruct s as [|c' s]; simpl.
    + split; [discriminate | intros [post Hpost]; discriminate].
    + destruct (Ascii.ascii_dec c c') as [->|Hne].
      * rewrite IH.
        split; intros [post Hpost]; exists post;
          rewrite append_cons in *; congruence.
      * split; [done | intros [post Hpost]].
        rewrite append_cons in Hpost. congruence.
Qed.

Lemma str_contains_spec (k s : string) :
  str_contains k s = true ↔ substring_of k s.
Proof.
  unfold substring_of.
  induction s as [|c s IH].
  - change (str_contains k "") with (String.prefix k "" || false).
    rewrite orb_false_r, prefix_spec. split.
    + intros [post Hpost]. by exists "", post.
    + intros ([|c pre] & post & Hs); [by exists post | done].
  - change (str_contains k (String c s))
      with (String.prefix k (String c s) || str_contains k s).
    rewrite orb_true_iff, prefix_spec, IH. split.
    + intros [[post Hpost] | (pre & post & Hs)].
      * by exists "", post.
      * exists (String c pre), post. by rewrite append_cons, Hs.
    + intros ([|c' pre] & post & Hs).
      * left. by exists post.
      * right. exists pre, post. rewrite append_cons in Hs. congruence.
Qed.

Lemma str_contains_false (k s : string) :
  str_contains k s = false ↔ ¬ substring_of k s.
Proof.
  rewrite <- str_contains_spec. destruct (str_contains k s); naive_solver.
Qed.

(** ** The keyword loops of [analyze_prompt] *)

(** A pass of the loop appends exactly the hits, and raises the salience
    once per hit. *)
Lemma scan_keywords_spec text level keywords salience detected :
  scan_keywords text level keywords (salience, detected) =
  (fold_left (λ s _, py_max s level) (hits text keywords) salience,
   detected ++ hits text keywords).
Proof.
  revert salience detected.
  induction keywords as [|k keywords IH]; intros salience detected.
  - unfold hits. simpl. by rewrite app_nil_r.
  - unfold scan_keywords, hits in *. simpl.
    rewrite filter_cons.
    destruct (str_contains k text) eqn:Hk.
    + rewrite decide_True by done. rewrite IH. simpl.
      by rewrite <- app_assoc.
    + rewrite decide_False by (by intros ?). apply IH.
Qed.

Lemma raise_salience level (found : list string) salience :
  py_max salience level = level →
  py_max level level = level →
  fold_left (λ s _, py_max s level) found salience =
  match found with [] => salience | _ => level end.
Proof.
  intros Hs Hl. destruct found as [|k found]; [done|]. simpl. rewrite Hs.
  induction found as [|k' found IH]; [done|]. simpl. by rewrite Hl.
Qed.

Lemma elem_of_hits text keywords k :
  k ∈ hits text keywords ↔ k ∈ keywords ∧ str_contains k text = true.
Proof.
  unfold hits. rewrite list_elem_of_filter.
  destruct (str_contains k text); simpl; intuition congruence.
Qed.

(** [analyze_prompt] never fails, and its result is decided by which of the
    two keyword lists has a hit. *)
Lemma analyze_prompt_cases `{PyLib} (prompt : string) :
  let text := str_lower prompt in
  analyze_prompt prompt =
  Normal
    match hits text HIGH_RISK_KEYWORDS, hits text MEDIUM_RISK_KEYWORDS with
    | (_ :: _) as high, _ => response 0.9 true "emerge" high
    | [], ((_ :: _) as medium) => response 0.6 false "subtle" medium
    | [], [] => response 0.1 false "silent" []
    end.
Proof.
  intros text. unfold analyze_prompt. fold text.
  rewrite scan_keywords_spec, raise_salience by reflexivity.
  destruct (hits text HIGH_RISK_KEYWORDS) as [|k high] eqn:Hhigh.
  - change (PrimFloat.ltb 0.1 0.9) with true. cbv iota.
    rewrite scan_keywords_spec, raise_salience by reflexivity.
    destruct (hits text MEDIUM_RISK_KEYWORDS) as [|k medium]; reflexivity.
  - reflexivity.
Qed.

(** C2: a prompt whose lower-cased text contains a high-risk keyword gets
    salience at least 0.85 (it is 0.9), tier high, mode "emerge" and
    [should_emerge]; [detected_keywords] is the list of all high-risk
    keywords that occur, in table order, whatever medium-risk keywords the
    text holds. *)
Theorem high_risk_keyword_forces_emergence `{PyLib} (prompt keyword : string) :
  keyword ∈ HIGH_RISK_KEYWORDS →
  substring_of keyword (str_lower prompt) →
  ∃ r, analyze_prompt prompt = Normal r ∧
    PrimFloat.leb 0.85 (salience r) = true ∧
    spec_risk_tier (salience r) = TierHigh ∧
    mode r = "emerge" ∧
    should_emerge r = true ∧
    detected_keywords r =
      filter (λ k, str_contains k (str_lower prompt)) HIGH_RISK_KEYWORDS ∧
    (∀ k, k ∈ HIGH_RISK_KEYWORDS → substring_of k (str_lower prompt) →
          k ∈ detected_keywords r).
Proof.
  intros Hin Hsub. rewrite analyze_prompt_cases.
  assert (Hhit : keyword ∈ hits (str_lower prompt) HIGH_RISK_KEYWORDS)
    by (apply elem_of_hits; split; [done | by apply str_contains_spec]).
  destruct (hits (str_lower prompt) HIGH_RISK_KEYWORDS) as [|k high] eqn:E.
  { by apply elem_of_nil in Hhit. }
  eexists. split; [reflexivity|]. simpl.
  do 4 (split; [reflexivity|]). split.
  - symmetry. exact E.
  - intros k' Hk' Hsub'. rewrite <- E.
    apply elem_of_hits; split; [done | by apply str_contains_spec].
Qed.

(** C2 at a prompt that holds two high-risk and three medium-risk
    keywords. *)
Lemma high_risk_keyword_forces_emergence_witness :
  ∃ r, analyze_prompt (H := ascii_runtime.ascii_pylib)
         "Migrate the auth schema, then DROP the Production database"
       = Normal r ∧
    PrimFloat.leb 0.85 (salience r) = true ∧
    spec_risk_tier (salience r) = TierHigh ∧
    mode r = "emerge" ∧
    should_emerge r = true ∧
    detected_keywords r = ["drop"; "production"].
Proof.
  destruct (high_risk_keyword_forces_emergence
              (H := ascii_runtime.ascii_pylib)
              "Migrate the auth schema, then DROP the Production database"
              "drop") as (r & Hr & Hsal & Htier & Hmode & Hemerge & Hdet & _).
  - repeat constructor.
  - exists "migrate the auth schema, then ", " the production database".
    reflexivity.
  - exists r. repeat split; assumption.
Defined.

(** C10: every prompt gets a response; its salience is 0.1, 0.6 or 0.9;
    [should_emerge], mode "emerge" and salience 0.9 hold together or not at
    all; and the reason is absent exactly when no keyword was detected. *)
Theorem analyze_prompt_invariants `{PyLib} (prompt : string) :
  ∃ r, analyze_prompt prompt = Normal r ∧
    (salience r = 0.1%float ∨ salience r = 0.6%float ∨ salience r = 0.9%float) ∧
    (should_emerge r = true ↔ mode r = "emerge") ∧
    (mode r = "emerge" ↔ salience r = 0.9%float) ∧
    (emergence_reason r = None ↔ detected_keywords r = []).
Proof.
  rewrite analyze_prompt_cases. eexists. split; [reflexivity|].
  destruct (hits (str_lower prompt) HIGH_RISK_KEYWORDS) as [|k high];
    [destruct (hits (str_lower prompt) MEDIUM_RISK_KEYWORDS) as [|k medium]|];
    simpl; repeat split; auto; try discriminate; try (by float_neq).
Qed.

(** ** Intent detection *)

(** The inner loop stops at the first keyword, in list order, that occurs. *)
Lemma any_keyword_in_true keywords text :
  any_keyword_in keywords text = true →
  ∃ skipped keyword rest,
    keywords = skipped ++ keyword :: rest ∧
    substring_of keyword text ∧ no_hit text skipped.
Proof.
  induction keywords as [|k keywords IH]; simpl; [done|].
  destruct (str_contains k text) eqn:Hk.
  - intros _. exists [], k, keywords.
    split; [done|]. split; [by apply str_contains_spec | constructor].
  - intros (skipped & keyword & rest & -> & Hsub & Hno)%IH.
    exists (k :: skipped), keyword, rest.
    split; [done|]. split; [done|].
    constructor; [by apply str_contains_false | done].
Qed.

Lemma any_keyword_in_false keywords text :
  any_keyword_in keywords text = false → no_hit text keywords.
Proof.
  induction keywords as [|k keywords IH]; simpl; [constructor|].
  destruct (str_contains k text) eqn:Hk; [done|].
  intros Hrest. constructor; [by apply str_contains_false | by apply IH].
Qed.

(** The outer loop returns the tag of the first entry, in table order, one
    of whose keywords occurs, and "unknown" when there is none. *)
Lemma scan_patterns_spec patterns text :
  (∃ before intent keywords after,
      patterns = before ++ (intent, keywords) :: after ∧
      Forall (λ entry, no_hit text entry.2) before ∧
      (∃ skipped keyword rest,
          keywords = skipped ++ keyword :: rest ∧
          substring_of keyword text ∧ no_hit text skipped) ∧
      scan_patterns patterns text = intent)
  ∨ (Forall (λ entry, no_hit text entry.2) patterns ∧
     scan_patterns patterns text = "unknown").
Proof.
  induction patterns as [|[intent keywords] patterns IH]; simpl.
  - right. by split; [constructor|].
  - destruct (any_keyword_in keywords text) eqn:Hany.
    + left. exists [], intent, keywords, patterns.
      split; [done|]. split; [constructor|].
      split; [by apply any_keyword_in_true | done].
    + apply any_keyword_in_false in Hany.
      destruct IH as [(before & i & ks & after & -> & Hbefore & Hkw & Hres)
                     | [Hnone Hres]].
      * left. exists ((intent, keywords) :: before), i, ks, after.
        split; [done|]. split; [by constructor|]. by split.
      * right. split; [by constructor | done].
Qed.

(** C7: [detect_intention] lower-cases the message and walks
    [INTENT_PATTERNS] in table order and each keyword list in list order;
    it returns the tag of the first entry that has a keyword occurring in
    the lower-cased text (the keyword found being the first of that list
    that occurs), and "unknown" when no keyword of any entry occurs.  It
    is a function defined on every message: its value is one of the eight
    tags and depends on the lower-cased text only. *)
Theorem detect_intention_first_match `{PyLib} (message : string) :
  let text := str_lower message in
  ((∃ before intent keywords after,
       INTENT_PATTERNS = before ++ (intent, keywords) :: after ∧
       Forall (λ entry, no_hit text entry.2) before ∧
       (∃ skipped keyword rest,
           keywords = skipped ++ keyword :: rest ∧
           substring_of keyword text ∧ no_hit text skipped) ∧
       detect_intention message = intent)
   ∨ (Forall (λ entry, no_hit text entry.2) INTENT_PATTERNS ∧
      detect_intention message = "unknown")) ∧
  detect_intention message ∈
    ["create"; "fix"; "refactor"; "understand"; "delete"; "test"; "deploy";
     "unknown"] ∧
  (∀ message', str_lower message' = text →
     detect_intention message' = detect_intention message).
Proof.
  intros text. split; [apply scan_patterns_spec|]. split.
  - unfold detect_intention. fold text. generalize text. intros t.
    unfold INTENT_PATTERNS. simpl.
    repeat (match goal with
            | |- context [if ?b then _ else _] => destruct b
            end; [set_solver|]).
    set_solver.
  - intros message' Heq. unfold detect_intention. by rewrite Heq.
Qed.

(** The cases of the repository's own tests, on the ASCII runtime. *)
Example detect_intention_tests :
  let detect := detect_intention (H := ascii_runtime.ascii_pylib) in
  detect "Create a new component" = "create" ∧
  detect "There's an error here" = "fix" ∧
  detect "Clean up the code" = "refactor" ∧
  detect "Help me with this" = "understand" ∧
  detect "Drop the table" = "delete" ∧
  detect "Check the coverage" = "test" ∧
  detect "Ship this feature" = "deploy" ∧
  detect "Random text here" = "unknown" ∧
  detect "FIX THE BUG" = "fix" ∧
  detect "Delete all user records" = "delete".
Proof. vm_compute. repeat split. Qed.

(** ** File paths *)

Lemma extract_files_touched_unfold `{PyLib} (message : string) :
  extract_files_touched message =
  take 10 (list_of_set (path_candidates message)).
Proof. reflexivity. Qed.

(** C9: [extract_files_touched] returns at most 10 entries, no two of them
    equal; every entry is a candidate found by one of the patterns, and
    every candidate is returned unless the cap of 10 is reached.  The order
    of the entries is not fixed: two runtimes that differ in the iteration
    order of sets only return the same entries in different orders. *)
Theorem extract_files_touched_cap_and_dedup :
  (∀ `{PyLib} (message : string),
     let files := extract_files_touched message in
     (length files ≤ 10)%nat ∧
     NoDup files ∧
     (∀ f, f ∈ files → f ∈ path_candidates message) ∧
     (∀ f, f ∈ path_candidates message → f ∈ files ∨ length files = 10%nat))
  ∧
  (∃ message,
     let files := extract_files_touched (H := ascii_runtime.ascii_pylib) message in
     let files' := extract_files_touched (H := ascii_runtime.reversed_pylib) message in
     files ≠ files' ∧ files ≡ₚ files').
Proof.
  split.
  - intros L message files. subst files.
    rewrite extract_files_touched_unfold.
    set (s := list_of_set (path_candidates message)).
    assert (Hs : NoDup s) by apply list_of_set_NoDup.
    split; [rewrite length_take; lia|].
    split; [eapply sublist_NoDup; [exact Hs | apply sublist_take]|].
    split.
    + intros f Hf. apply list_of_set_elem. fold s.
      eapply elem_of_sublist; [exact Hf | apply sublist_take].
    + intros f Hf. apply list_of_set_elem in Hf. fold s in Hf.
      destruct (decide (length s ≤ 10)%nat) as [Hle|Hgt].
      * left. by rewrite take_ge.
      * right. rewrite length_take. lia.
  - exists "compare config.json and settings.yaml".
    split; [by vm_compute|].
    vm_compute. apply perm_swap.
Qed.

(** ** Frames: what the processing of records can and cannot touch *)

Lemma framed_ret {A} (a : A) : framed (ret a).
Proof.
  intros w. exists []. simpl. rewrite app_nil_r.
  repeat split; [constructor | discriminate].
Qed.

Lemma framed_raise {A} (e : exn) : is_OSError e = false → framed (@raise A e).
Proof.
  intros He w. exists []. simpl. rewrite app_nil_r.
  repeat split; [constructor | congruence].
Qed.

Lemma framed_emit (e : effect) : is_record_effect e = true → framed (emit e).
Proof.
  intros He w. exists [e]. simpl.
  repeat split; [by constructor | discriminate].
Qed.

Lemma framed_bind {A B} (m : M A) (k : A → M B) :
  framed m → (∀ a, framed (k a)) → framed (bind m k).
Proof.
  intros Hm Hk w. unfold bind.
  destruct (Hm w) as (tr1 & Htr1 & Hrec1 & Hpos1 & Hexn1).
  destruct (m w) as [[a|e] w1]; simpl in *.
  - destruct (Hk a w1) as (tr2 & Htr2 & Hrec2 & Hpos2 & Hexn2).
    exists (tr1 ++ tr2). rewrite Htr2, Htr1, Hpos2, Hpos1, app_assoc.
    repeat split; [by apply Forall_app | done].
  - exists tr1. repeat split; [done..|].
    intros e' [= <-]. by apply Hexn1.
Qed.

Lemma framed_try_except {A} (m h : M A) (handles : exn → bool) :
  framed m → framed h → framed (try_except m handles h).
Proof.
  intros Hm Hh w. unfold try_except.
  destruct (Hm w) as (tr1 & Htr1 & Hrec1 & Hpos1 & Hexn1).
  destruct (m w) as [[a|e] w1]; simpl in *.
  - exists tr1. repeat split; done.
  - destruct (handles e).
    + destruct (Hh w1) as (tr2 & Htr2 & Hrec2 & Hpos2 & Hexn2).
      exists (tr1 ++ tr2). rewrite Htr2, Htr1, Hpos2, Hpos1, app_assoc.
      repeat split; [by apply Forall_app | done].
    + exists tr1. repeat split; done.
Qed.

Lemma framed_for_each {A} (xs : list A) (body : A → M unit) :
  (∀ x, framed (body x)) → framed (for_each xs body).
Proof.
  intros Hbody. induction xs as [|x xs IH]; simpl.
  - apply framed_ret.
  - apply framed_bind; [apply Hbody | intros _; apply IH].
Qed.

Lemma _send_event_eq `{PyLib} env (ev : event) (w : world) :
  _send_event env ev w =
  (send_outcome (transport env (requests w)),
   {| tracker := tracker w; clock_reads := clock_reads w;
      requests := S (requests w);
      trace := trace w ++ send_trace (transport env (requests w)) ev |}).
Proof.
  unfold _send_event, try_except, bind, emit, raise, ret.
  destruct (transport env (requests w)) as [|status|e]; simpl.
  - by rewrite app_nil_r.
  - done.
  - by destruct e.
Qed.

Lemma framed_send_event `{PyLib} env ev : framed (_send_event env ev).
Proof.
  intros w. rewrite _send_event_eq. simpl.
  exists (send_trace (transport env (requests w)) ev).
  repeat split.
  - destruct (transport env (requests w)); repeat constructor.
  - intros e. destruct (transport env (requests w)) as [| |e']; simpl;
      [discriminate..|].
    destruct e'; simpl; (discriminate || (intros [= <-]; done)).
Qed.

Lemma _process_entry_user `{PyLib} env entry content project w :
  user_record entry content →
  _process_entry env entry project w =
  _send_event env
    (event_of content (now_isoformat env (clock_reads w)) project)
    (recorded env content project w).
Proof.
  intros (d & -> & Hrole & Hcontent & Hne).
  unfold _process_entry, entry_get, bind, ret. simpl.
  rewrite Hrole, Hcontent. simpl.
  destruct (String.eqb_spec content "") as [->|_]; [done|]. reflexivity.
Qed.

Lemma framed_entry_get entry key default :
  framed (entry_get entry key default).
Proof. destruct entry; (apply framed_ret || by apply framed_raise). Qed.

Lemma framed_process_entry `{PyLib} env entry project :
  framed (_process_entry env entry project).
Proof.
  unfold _process_entry.
  apply framed_bind; [apply framed_entry_get|]. intros role.
  destruct (negb _); [apply framed_ret|].
  apply framed_bind; [apply framed_entry_get|]. intros content.
  destruct (negb _); [apply framed_ret|].
  destruct content; try (by apply framed_raise).
  apply framed_bind; [by apply framed_emit|]. intros _ w.
  match goal with |- context [_send_event env ?ev ?w1] =>
    destruct (framed_send_event env ev w1) as (tr & Htr & Hrec & Hpos & Hexn)
  end.
  exists tr. repeat split; done.
Qed.

Lemma framed_process_line `{PyLib} env project line :
  framed (process_line env project line).
Proof.
  unfold process_line. destruct (String.eqb _ _); [apply framed_ret|].
  apply framed_try_except; [|apply framed_ret].
  apply framed_bind; [by apply framed_emit|]. intros _.
  destruct (json_loads _) as [entry|e] eqn:E; [apply framed_process_entry|].
  apply framed_raise. by eapply json_loads_raises.
Qed.

(** ** One pass over one file *)

Lemma try_except_transparent {A} (m h : M A) handles w :
  (∀ e, (m w).1 = Raised e → handles e = false) →
  try_except m handles h w = m w.
Proof.
  intros Hm. unfold try_except.
  destruct (m w) as [[a|e] w'] eqn:E; [done|].
  by rewrite (Hm e).
Qed.

(** No new bytes: the pass returns at once and changes nothing. *)
Lemma _process_file_skip `{PyLib} env content readable file_path project w :
  Z.of_nat (String.length content) ≤ checkpoint w file_path →
  _process_file env (Present content readable) file_path project w
  = (Normal (), w).
Proof.
  intros Hle. unfold _process_file, bind, get_tracker, try_except, ret.
  fold (checkpoint w file_path).
  destruct (Z.leb_spec (Z.of_nat (String.length content))
              (checkpoint w file_path)); [done | lia].
Qed.

(** New bytes that are not UTF-8: the read raises, and the pass ends there,
    with nothing written. *)
Lemma _process_file_undecodable `{PyLib} env content file_path project w :
  checkpoint w file_path < Z.of_nat (String.length content) →
  decodable_from (checkpoint w file_path) content = false →
  _process_file env (Present content true) file_path project w
  = (Raised UnicodeDecodeError, w).
Proof.
  intros Hlt Hbytes. unfold _process_file, bind, get_tracker, try_except.
  fold (checkpoint w file_path).
  destruct (Z.leb_spec (Z.of_nat (String.length content))
              (checkpoint w file_path)); [lia|].
  unfold decodable_from in Hbytes. cbn [negb]. by rewrite Hbytes.
Qed.

(** New bytes: read them, write the checkpoint, then process the lines. *)
Lemma _process_file_read `{PyLib} env content file_path project w :
  let size := Z.of_nat (String.length content) in
  checkpoint w file_path < size →
  decodable_from (checkpoint w file_path) content = true →
  _process_file env (Present content true) file_path project w
  = for_each (new_lines content (checkpoint w file_path))
      (process_line env project)
      (committed file_path (checkpoint w file_path) size w).
Proof.
  intros size Hlt Hbytes.
  assert (Hbody :
    ∀ e, (for_each (new_lines content (checkpoint w file_path))
            (process_line env project)
            (committed file_path (checkpoint w file_path) size w)).1
         = Raised e → is_OSError e = false).
  { destruct (framed_for_each (new_lines content (checkpoint w file_path))
                (process_line env project)
                (framed_process_line env project)
                (committed file_path (checkpoint w file_path) size w))
      as (tr & _ & _ & _ & Hexn).
    exact Hexn. }
  unfold _process_file, bind at 1, get_tracker.
  fold (checkpoint w file_path). fold size.
  destruct (Z.leb_spec size (checkpoint w file_path)); [lia|].
  unfold decodable_from in Hbytes. cbn [negb]. rewrite Hbytes. cbn [negb].
  rewrite try_except_transparent; [reflexivity | exact Hbody].
Qed.

Lemma checkpoint_committed file_path start stop w :
  checkpoint (committed file_path start stop w) file_path = stop.
Proof. unfold checkpoint. simpl. by rewrite lookup_insert_eq. Qed.

Lemma checkpoint_positions w w' file_path :
  positions (tracker w') = positions (tracker w) →
  checkpoint w' file_path = checkpoint w file_path.
Proof. unfold checkpoint. by intros ->. Qed.

(** C1 (as the code has it): when the size of a file is smaller than its
    checkpoint, the pass leaves the file alone: it reads nothing, writes no
    checkpoint and records no event. *)
Theorem shrunken_file_is_skipped `{PyLib}
    env content readable file_path project w :
  Z.of_nat (String.length content) < checkpoint w file_path →
  _process_file env (Present content readable) file_path project w
  = (Normal (), w).
Proof. intros Hlt. apply _process_file_skip. lia. Qed.

(** C1 (as the code has it) at a file that was read and then replaced by a
    shorter one. *)
Lemma shrunken_file_is_skipped_witness :
  let longer := message_line "user" "Fix the bug in main.py"
                +:+ message_line "assistant" "Done." in
  let shorter := message_line "user" "Add tests" in
  let w1 := (_process_file (H := ascii_runtime.ascii_pylib) demo_env
               (Present longer true) session_file "app" world_init).2 in
  _process_file (H := ascii_runtime.ascii_pylib) demo_env
    (Present shorter true) session_file "app" w1
  = (Normal (), w1).
Proof.
  intros longer shorter w1.
  apply (shrunken_file_is_skipped (H := ascii_runtime.ascii_pylib)).
  vm_compute. reflexivity.
Defined.

(** C1 as stated fails: a file of 96 bytes is read, then replaced by one of
    41 bytes; the pass that follows neither resets the checkpoint, which
    stays at 96, nor reads the range (0, 41). *)
Lemma truncated_file_is_not_reset :
  let longer := message_line "user" "Fix the bug in main.py"
                +:+ message_line "assistant" "Done." in
  let shorter := message_line "user" "Add tests" in
  let w1 := (_process_file (H := ascii_runtime.ascii_pylib) demo_env
               (Present longer true) session_file "app" world_init).2 in
  let w2 := (_process_file (H := ascii_runtime.ascii_pylib) demo_env
               (Present shorter true) session_file "app" w1).2 in
  Z.of_nat (String.length longer) = 96 ∧
  Z.of_nat (String.length shorter) = 41 ∧
  checkpoint w1 session_file = 96 ∧
  checkpoint w2 session_file = 96 ∧
  read_ranges session_file (trace w2) = [(0, 96)] ∧
  ¬ (checkpoint w2 session_file = 41 ∧
     (0, 41) ∈ read_ranges session_file (trace w2)).
Proof.
  vm_compute. repeat split. intros [? _]. discriminate.
Qed.

(** C3 (as the code has it): a pass that finds new bytes which decode as
    UTF-8 reads them, writes the checkpoint once, at the end of what it
    read, and only then parses, classifies and posts; the checkpoint stays
    written when the processing of a record raises, so that a later pass of
    the same tracker does not read those bytes again.  When the new bytes
    do not decode, the read raises [UnicodeDecodeError], which ends the
    pass with nothing read, nothing written and the checkpoint where it
    was. *)
Theorem checkpoint_committed_once_before_records `{PyLib}
    env content file_path project w :
  let size := Z.of_nat (String.length content) in
  checkpoint w file_path < size →
  (decodable_from (checkpoint w file_path) content = true →
   ∃ r w' tr,
     _process_file env (Present content true) file_path project w = (r, w') ∧
     trace w' =
       trace w ++ EvRead file_path (checkpoint w file_path) size
               :: EvCommit file_path size :: tr ∧
     Forall (λ e, is_record_effect e = true) tr ∧
     checkpoint w' file_path = size ∧
     _process_file env (Present content true) file_path project w'
     = (Normal (), w')) ∧
  (decodable_from (checkpoint w file_path) content = false →
   _process_file env (Present content true) file_path project w
   = (Raised UnicodeDecodeError, w)).
Proof.
  intros size Hlt. split; [|by apply _process_file_undecodable].
  intros Hbytes. rewrite _process_file_read by done. fold size.
  set (w1 := committed file_path (checkpoint w file_path) size w).
  set (m := for_each _ _).
  destruct (framed_for_each (new_lines content (checkpoint w file_path))
              (process_line env project)
              (framed_process_line env project) w1)
    as (tr & Htr & Hrec & Hpos & _).
  fold m in Htr, Hpos.
  assert (Hcp : checkpoint (m w1).2 file_path = size).
  { rewrite (checkpoint_positions w1) by done. apply checkpoint_committed. }
  exists (m w1).1, (m w1).2, tr. split; [by destruct (m w1)|].
  split; [|split; [done|split; [done|]]].
  - rewrite Htr. subst w1. simpl. by rewrite <- !app_assoc.
  - apply _process_file_skip. fold size. lia.
Qed.

(** C3 (as the code has it) at a file whose second record makes the
    classification raise, and at a file whose second line is Latin-1. *)
Lemma checkpoint_committed_once_before_records_witness :
  let content := message_line "user" "Deploy to production"
                 +:+ blocks_line +:+ message_line "user" "Add tests" in
  let size := Z.of_nat (String.length content) in
  let content' := message_line "user" "Deploy to production"
                  +:+ latin1_line +:+ message_line "user" "Add tests" in
  (∃ r w' tr,
    _process_file (H := ascii_runtime.ascii_pylib) demo_env
      (Present content true) session_file "app" world_init = (r, w') ∧
    trace w' =
      trace world_init ++ EvRead session_file (checkpoint world_init session_file) size
              :: EvCommit session_file size :: tr ∧
    Forall (λ e, is_record_effect e = true) tr ∧
    checkpoint w' session_file = size ∧
    _process_file (H := ascii_runtime.ascii_pylib) demo_env
      (Present content true) session_file "app" w'
    = (Normal (), w')) ∧
  _process_file (H := ascii_runtime.ascii_pylib) demo_env
    (Present content' true) session_file "app" world_init
  = (Raised UnicodeDecodeError, world_init).
Proof.
  intros content size content'. split.
  - apply (checkpoint_committed_once_before_records
             (H := ascii_runtime.ascii_pylib) demo_env content session_file
             "app" world_init).
    + vm_compute. reflexivity.
    + vm_compute. reflexivity.
  - apply (checkpoint_committed_once_before_records
             (H := ascii_runtime.ascii_pylib) demo_env content' session_file
             "app" world_init).
    + vm_compute. reflexivity.
    + vm_compute. reflexivity.
Defined.

(** C3 as stated fails on restart: the second record of a file has a list
    as content, so its classification raises [AttributeError], which
    nothing catches: the process ends, with the checkpoint at 141, the end
    of the file.  Started again, it reads the bytes 0 to 141 once more and
    records the event of the first record a second time. *)
Lemma crash_then_restart_rereads :
  let content := message_line "user" "Deploy to production"
                 +:+ blocks_line +:+ message_line "user" "Add tests" in
  let pass := _process_file (H := ascii_runtime.ascii_pylib) demo_env
                (Present content true) session_file "app" in
  let w1 := (pass world_init).2 in
  let w2 := (pass (restart w1)).2 in
  (pass world_init).1 = Raised AttributeError ∧
  checkpoint w1 session_file = 141 ∧
  read_ranges session_file (trace w1) = [(0, 141)] ∧
  read_ranges session_file (trace w2) = [(0, 141)] ∧
  session_events (tracker w2) = session_events (tracker w1) ∧
  length (session_events (tracker w1)) = 1%nat.
Proof. vm_compute. repeat split. Qed.

(** ** Successive passes over a growing file *)

Lemma read_ranges_app file_path tr1 tr2 :
  read_ranges file_path (tr1 ++ tr2) =
  read_ranges file_path tr1 ++ read_ranges file_path tr2.
Proof.
  induction tr1 as [|e tr1 IH]; [done|].
  destruct e; simpl; try done.
  destruct (String.eqb _ _); simpl; by rewrite IH.
Qed.










(** The ranges read in that run. *)
Example growing_file_ranges :
  let first := message_line "user" "Fix the bug in main.py" in
  let second := first +:+ message_line "assistant" "Done." in
  let third := second +:+ broken_line +:+ message_line "user" "Add tests" in
  let run := file_passes (H := ascii_runtime.ascii_pylib) demo_env
               ((λ c, Present c true) <$> [first; second; second; third])
               session_file "app" world_init in
  run.1 = Normal () ∧
  read_ranges session_file (trace run.2) = [(0, 54); (54, 96); (96, 147)] ∧
  commits session_file (trace run.2) = [54; 96; 147] ∧
  length (session_events (tracker run.2)) = 2%nat.
Proof. vm_compute. repeat split. Qed.

(** A run that a record ends: the second snapshot holds a user message whose
    content is a list.  Its pass has read and committed the snapshot before
    it raises, so the ranges read cover the bytes up to its size, 141; the
    third snapshot is never looked at. *)
Example growing_file_ended_by_a_record :
  let first := message_line "user" "Deploy to production" in
  let second := first +:+ blocks_line +:+ message_line "user" "Add tests" in
  let third := second +:+ message_line "user" "Fix the bug" in
  let run := file_passes (H := ascii_runtime.ascii_pylib) demo_env
               ((λ c, Present c true) <$> [first; second; third])
               session_file "app" world_init in
  run.1 = Raised AttributeError ∧
  read_ranges session_file (trace run.2) = [(0, 52); (52, 141)] ∧
  commits session_file (trace run.2) = [52; 141] ∧
  checkpoint run.2 session_file = 141 ∧
  Z.of_nat (String.length second) = 141.
Proof. vm_compute. repeat split. Qed.

(** ** Dispatch failures *)

Lemma send_outcome_benign r : benign r → send_outcome r = Normal ().
Proof.
  intros Hr. destruct r as [| |e]; simpl; [done..|]. by rewrite (Hr e).
Qed.

Lemma similar_ret {A} (a : A) : similar (ret a) (ret a).
Proof. by intros w1 w2 Hw. Qed.

Lemma similar_raise {A} (e : exn) : similar (@raise A e) (raise e).
Proof. by intros w1 w2 Hw. Qed.

Lemma similar_emit (e1 e2 : effect) : similar (emit e1) (emit e2).
Proof. by intros w1 w2 Hw. Qed.

Lemma similar_get_tracker : similar get_tracker get_tracker.
Proof. intros w1 w2 [Ht Hc]. simpl. by rewrite Ht. Qed.

Lemma similar_put_tracker t : similar (put_tracker t) (put_tracker t).
Proof. by intros w1 w2 [Ht Hc]. Qed.

Lemma similar_bind {A B} (m1 m2 : M A) (k1 k2 : A → M B) :
  similar m1 m2 → (∀ a, similar (k1 a) (k2 a)) →
  similar (bind m1 k1) (bind m2 k2).
Proof.
  intros Hm Hk w1 w2 Hw. unfold bind.
  destruct (Hm w1 w2 Hw) as [Hout Hw'].
  destruct (m1 w1) as [[a1|e1] w1'], (m2 w2) as [[a2|e2] w2'];
    simpl in *; try discriminate.
  - injection Hout as ->. by apply Hk.
  - injection Hout as ->. done.
Qed.

Lemma similar_try_except {A} (m1 m2 h1 h2 : M A) handles :
  similar m1 m2 → similar h1 h2 →
  similar (try_except m1 handles h1) (try_except m2 handles h2).
Proof.
  intros Hm Hh w1 w2 Hw. unfold try_except.
  destruct (Hm w1 w2 Hw) as [Hout Hw'].
  destruct (m1 w1) as [[a1|e1] w1'], (m2 w2) as [[a2|e2] w2'];
    simpl in *; try discriminate.
  - done.
  - injection Hout as ->. destruct (handles e2); [by apply Hh | done].
Qed.

Lemma similar_for_each {A} (xs : list A) (body1 body2 : A → M unit) :
  (∀ x, similar (body1 x) (body2 x)) →
  similar (for_each xs body1) (for_each xs body2).
Proof.
  intros Hbody. induction xs as [|x xs IH]; simpl.
  - apply similar_ret.
  - apply similar_bind; [apply Hbody | intros _; apply IH].
Qed.

Section two_networks.
Context `{PyLib} (env env' : Env).
Hypothesis same_clock : now_isoformat env' = now_isoformat env.
Hypothesis benign_env : ∀ k, benign (transport env k).
Hypothesis benign_env' : ∀ k, benign (transport env' k).

Lemma similar_send_event ev :
  similar (_send_event env ev) (_send_event env' ev).
Proof using All.
  intros w1 w2 [Ht Hc]. rewrite !_send_event_eq.
  rewrite !send_outcome_benign by done. done.
Qed.

Lemma similar_process_entry entry project :
  similar (_process_entry env entry project)
          (_process_entry env' entry project).
Proof using All.
  unfold _process_entry.
  apply similar_bind.
  { destruct entry; (apply similar_ret || apply similar_raise). }
  intros role. destruct (negb _); [apply similar_ret|].
  apply similar_bind.
  { destruct entry; (apply similar_ret || apply similar_raise). }
  intros content. destruct (negb _); [apply similar_ret|].
  destruct content; try apply similar_raise.
  apply similar_bind; [apply similar_emit|]. intros _ w1 w2 [Ht Hc].
  rewrite same_clock, Ht, Hc. by apply similar_send_event.
Qed.

Lemma similar_process_line project line :
  similar (process_line env project line) (process_line env' project line).
Proof using All.
  unfold process_line. destruct (String.eqb _ _); [apply similar_ret|].
  apply similar_try_except; [|apply similar_ret].
  apply similar_bind; [apply similar_emit|]. intros _.
  destruct (json_loads _); [apply similar_process_entry | apply similar_raise].
Qed.

Lemma similar_process_file file file_path project :
  similar (_process_file env file file_path project)
          (_process_file env' file file_path project).
Proof using All.
  unfold _process_file.
  apply similar_bind; [apply similar_get_tracker|]. intros t.
  apply similar_try_except; [|apply similar_emit].
  destruct file as [|content readable]; [apply similar_raise|].
  destruct (_ <=? _); [apply similar_ret|].
  destruct (negb _); [apply similar_raise|].
  destruct (negb _); [apply similar_raise|].
  apply similar_bind; [apply similar_emit|]. intros _.
  apply similar_bind; [apply similar_get_tracker|]. intros t'.
  apply similar_bind; [apply similar_put_tracker|]. intros _.
  apply similar_bind; [apply similar_emit|]. intros _.
  apply similar_for_each. intros line. apply similar_process_line.
Qed.

Lemma similar_scan_projects found :
  similar (scan_projects env found) (scan_projects env' found).
Proof using All.
  destruct found as [|files walk_fails]; [apply similar_ret|].
  apply similar_bind.
  - apply similar_for_each. intros [[file file_path] project].
    apply similar_process_file.
  - intros _. destruct walk_fails; [apply similar_raise | apply similar_ret].
Qed.

End two_networks.

(** C5: when the remote call fails in a way [except Exception] covers
    (time-out, connection error, missing client library, or an answer of
    any status), [_send_event] returns normally: it leaves the tracker as it
    was and has made one attempt, with no second one; and a scan ends the
    same way, with the same checkpoints and recorded events, as it would on
    a network where every post succeeds. *)
Theorem dispatch_failures_are_swallowed `{PyLib} (env : Env) :
  (∀ k, benign (transport env k)) →
  (∀ ev w, ∃ w' tr,
      _send_event env ev w = (Normal (), w') ∧
      tracker w' = tracker w ∧
      requests w' = S (requests w) ∧
      trace w' = trace w ++ tr ∧ (tr = [] ∨ tr = [EvPost ev]))
  ∧
  (∀ found w,
      (scan_projects env found w).1
      = (scan_projects (with_working_network env) found w).1 ∧
      tracker (scan_projects env found w).2
      = tracker (scan_projects (with_working_network env) found w).2).
Proof.
  intros Hbenign. split.
  - intros ev w. rewrite _send_event_eq, send_outcome_benign by done.
    eexists _, _. split; [reflexivity|]. simpl.
    repeat split. destruct (transport env (requests w)); simpl; auto.
  - intros found w.
    destruct (similar_scan_projects env (with_working_network env)
                eq_refl Hbenign (λ _ _, ltac:(discriminate)) found w w)
      as [Hout [Htracker _]]; done.
Qed.

Lemma demo_env_benign k : benign (transport demo_env k).
Proof.
  unfold benign.
  do 5 (destruct k as [|k];
        [intros e He; cbv in He; (discriminate He || by injection He as <-)|]).
  intros e He. destruct k; cbv in He; by injection He as <-.
Qed.

(** C5 at a network that answers, refuses, times out, or has no client. *)
Lemma dispatch_failures_are_swallowed_witness :
  (∀ ev w, ∃ w' tr,
      _send_event demo_env ev w = (Normal (), w') ∧
      tracker w' = tracker w ∧
      requests w' = S (requests w) ∧
      trace w' = trace w ++ tr ∧ (tr = [] ∨ tr = [EvPost ev]))
  ∧
  (∀ found w,
      (scan_projects (H := ascii_runtime.ascii_pylib) demo_env found w).1
      = (scan_projects (H := ascii_runtime.ascii_pylib)
           (with_working_network demo_env) found w).1 ∧
      tracker (scan_projects (H := ascii_runtime.ascii_pylib) demo_env found w).2
      = tracker (scan_projects (H := ascii_runtime.ascii_pylib)
                   (with_working_network demo_env) found w).2).
Proof.
  apply (dispatch_failures_are_swallowed (H := ascii_runtime.ascii_pylib)).
  apply demo_env_benign.
Defined.

(** ** Events *)

Lemma posted_app tr1 tr2 : posted (tr1 ++ tr2) = posted tr1 ++ posted tr2.
Proof.
  induction tr1 as [|e tr1 IH]; [done|]. destruct e; simpl; by rewrite ?IH.
Qed.

(** A pass over four user messages whose posts meet an answer, a refused
    connection, a missing client library and a time-out: all four events
    are recorded, and three posts were attempted. *)
Example scan_survives_dispatch_failures :
  let content := message_line "user" "Fix the bug in main.py"
                 +:+ message_line "user" "Deploy to production"
                 +:+ message_line "user" "Explain src/app.ts"
                 +:+ message_line "user" "Remove the old tests" in
  let run := scan_projects (H := ascii_runtime.ascii_pylib) demo_env
               (Listed [(Present content true, session_file, "app")] false)
               world_init in
  run.1 = Normal () ∧
  (λ ev, dict_get "intention" ev JNull) <$> session_events (tracker run.2)
  = [JStr "fix"; JStr "deploy"; JStr "understand"; JStr "delete"] ∧
  requests run.2 = 4%nat ∧
  length (posted (trace run.2)) = 3%nat.
Proof. vm_compute. repeat split. Qed.

(** C6: the event built from a user message has the five fields
    [event_type], [timestamp], [project], [files_touched], [intention], in
    this order; it is what is recorded and the only payload posted; and it
    holds of the message only the intent tag and the extracted paths: two
    messages with the same tag and the same paths, in the same project,
    give events that are equal apart from the time stamp. *)
Theorem event_carries_derived_values_only `{PyLib}
    env env' entry entry' content content' project w w' :
  user_record entry content →
  user_record entry' content' →
  detect_intention content = detect_intention content' →
  extract_files_touched content = extract_files_touched content' →
  let run := _process_entry env entry project w in
  let run' := _process_entry env' entry' project w' in
  ∃ ev ev',
    ev = [ ("event_type", JStr (detect_intention content));
           ("timestamp", JStr (now_isoformat env (clock_reads w)));
           ("project", JStr project);
           ("files_touched", JList (JStr <$> extract_files_touched content));
           ("intention", JStr (detect_intention content)) ] ∧
    session_events (tracker run.2) = session_events (tracker w) ++ [ev] ∧
    session_events (tracker run'.2) = session_events (tracker w') ++ [ev'] ∧
    (∃ sent, posted (trace run.2) = posted (trace w) ++ sent ∧
             (sent = [] ∨ sent = [ev])) ∧
    (∃ sent, posted (trace run'.2) = posted (trace w') ++ sent ∧
             (sent = [] ∨ sent = [ev'])) ∧
    ev.*1 = ["event_type"; "timestamp"; "project"; "files_touched"; "intention"] ∧
    ev'.*1 = ["event_type"; "timestamp"; "project"; "files_touched"; "intention"] ∧
    without_timestamp ev = without_timestamp ev'.
Proof.
  intros Hentry Hentry' Hintent Hfiles run run'.
  exists (event_of content (now_isoformat env (clock_reads w)) project),
         (event_of content' (now_isoformat env' (clock_reads w')) project).
  subst run run'.
  rewrite (_process_entry_user env entry content) by done.
  rewrite (_process_entry_user env' entry' content') by done.
  rewrite !_send_event_eq. simpl.
  split; [done|]. split; [done|]. split; [done|].
  split; [|split].
  - eexists. rewrite !posted_app, <- app_assoc. split; [reflexivity|].
    simpl. destruct (transport env _); simpl; auto.
  - eexists. rewrite !posted_app, <- app_assoc. split; [reflexivity|].
    simpl. destruct (transport env' _); simpl; auto.
  - split; [done|]. split; [done|].
    unfold event_of, without_timestamp. by rewrite Hintent, Hfiles.
Qed.

(** C6 at two different messages with the tag "fix" and the path
    api/server.py. *)
Lemma event_carries_derived_values_only_witness :
  let entry := JDict [("role", JStr "user");
                      ("content", JStr "Fix the bug in api/server.py now")] in
  let entry' := JDict [("uuid", JStr "7f3a"); ("role", JStr "user");
                       ("content", JStr "There is an error, see api/server.py")] in
  let run := _process_entry (H := ascii_runtime.ascii_pylib) demo_env
               entry "app" world_init in
  let run' := _process_entry (H := ascii_runtime.ascii_pylib)
                (with_working_network demo_env) entry' "app" run.2 in
  ∃ ev ev',
    ev = [ ("event_type", JStr "fix");
           ("timestamp", JStr "2025-03-01T09:00:00.000001");
           ("project", JStr "app");
           ("files_touched", JList [JStr "api/server.py"]);
           ("intention", JStr "fix") ] ∧
    session_events (tracker run.2) = session_events (tracker world_init) ++ [ev] ∧
    session_events (tracker run'.2) = session_events (tracker run.2) ++ [ev'] ∧
    (∃ sent, posted (trace run.2) = posted (trace world_init) ++ sent ∧
             (sent = [] ∨ sent = [ev])) ∧
    (∃ sent, posted (trace run'.2) = posted (trace run.2) ++ sent ∧
             (sent = [] ∨ sent = [ev'])) ∧
    ev.*1 = ["event_type"; "timestamp"; "project"; "files_touched"; "intention"] ∧
    ev'.*1 = ["event_type"; "timestamp"; "project"; "files_touched"; "intention"] ∧
    without_timestamp ev = without_timestamp ev'.
Proof.
  intros entry entry' run run'.
  apply (event_carries_derived_values_only (H := ascii_runtime.ascii_pylib)
           demo_env (with_working_network demo_env) entry entry'
           "Fix the bug in api/server.py now"
           "There is an error, see api/server.py" "app" world_init run.2).
  - eexists. repeat split; discriminate.
  - eexists. repeat split; discriminate.
  - vm_compute. reflexivity.
  - vm_compute. reflexivity.
Defined.

(** ** Malformed lines *)

Lemma process_line_malformed `{PyLib} env project line w :
  malformed line →
  process_line env project line w
  = (Normal (),
     {| tracker := tracker w; clock_reads := clock_reads w;
        requests := requests w;
        trace := trace w ++ [EvParse (str_strip line)] |}).
Proof.
  intros [Hne Hnone]. unfold process_line.
  destruct (String.eqb_spec (str_strip line) "") as [|_]; [done|].
  unfold try_except, bind, emit. simpl. by rewrite Hnone.
Qed.

Lemma process_line_user `{PyLib} env project line content w :
  (∀ k, benign (transport env k)) →
  user_line line content →
  ∃ tr,
    process_line env project line w
    = (Normal (),
       advanced w
         [event_of content (now_isoformat env (clock_reads w)) project] 1 tr).
Proof.
  intros Hbenign (Hne & entry & Hentry & Huser). unfold process_line.
  destruct (String.eqb_spec (str_strip line) "") as [|_]; [done|].
  unfold try_except, bind at 1, emit. rewrite Hentry.
  rewrite (_process_entry_user env entry content) by done.
  rewrite _send_event_eq, send_outcome_benign by done.
  eexists. unfold advanced, recorded. simpl.
  rewrite <- !app_assoc. reflexivity.
Qed.

Lemma for_each_cons {A} (x : A) xs (body : A → M unit) w :
  for_each (x :: xs) body w =
  match body x w with
  | (Normal _, w') => for_each xs body w'
  | (Raised e, w') => (Raised e, w')
  end.
Proof. reflexivity. Qed.



(** The same pass, evaluated: five lines, four events, and the checkpoint
    at 218, the size of the file. *)
Example three_valid_one_malformed_one_valid :
  let content := message_line "user" "Fix the bug in main.py"
                 +:+ message_line "user" "Deploy to production"
                 +:+ message_line "user" "Explain src/app.ts"
                 +:+ broken_line
                 +:+ message_line "user" "Remove the old tests" in
  let run := _process_file (H := ascii_runtime.ascii_pylib) demo_env
               (Present content true) session_file "app" world_init in
  length (readlines content) = 5%nat ∧
  run.1 = Normal () ∧
  length (session_events (tracker run.2)) = 4%nat ∧
  checkpoint run.2 session_file = 218 ∧
  Z.of_nat (String.length content) = 218.
Proof. vm_compute. repeat split. Qed.

(** ** The repository's tests and the scenarios of the specification,
       evaluated on the ASCII runtime *)

Example analyze_prompt_tests :
  let analyze := analyze_prompt (H := ascii_runtime.ascii_pylib) in
  analyze "Delete all user records"
    = Normal (response 0.9 true "emerge" ["delete"]) ∧
  analyze "Deploy to production"
    = Normal (response 0.9 true "emerge" ["production"]) ∧
  analyze "Run rm -rf on the directory"
    = Normal (response 0.9 true "emerge" ["rm -rf"]) ∧
  analyze "Refactor the authentication module"
    = Normal (response 0.6 false "subtle" ["refactor"; "auth"]) ∧
  analyze "Migrate the database schema"
    = Normal (response 0.6 false "subtle" ["migrate"; "database"; "schema"]) ∧
  analyze "Add a new function to calculate sum"
    = Normal (response 0.1 false "silent" []) ∧
  analyze "Add a console.log statement"
    = Normal (response 0.1 false "silent" []) ∧
  analyze "" = Normal (response 0.1 false "silent" []) ∧
  analyze "Delete the production database and drop tables"
    = Normal (response 0.9 true "emerge" ["delete"; "drop"; "production"]).
Proof. vm_compute. repeat split. Qed.

Example analyze_prompt_reason :
  emergence_reason
    (response 0.9 true "emerge" ["delete"; "drop"; "production"; "wipe"])
  = Some "Detected: delete, drop, production".
Proof. reflexivity. Qed.

Example extract_files_touched_tests :
  let extract := extract_files_touched (H := ascii_runtime.ascii_pylib) in
  "src/main.py" ∈ extract ("Edit the file " +:+ quoted "src/main.py") ∧
  "components/App.tsx" ∈ extract "Check components/App.tsx for errors" ∧
  extract "Compare config.json and settings.yaml"
    = ["config.json"; "settings.yaml"] ∧
  extract "Just regular text without files" = [] ∧
  extract "Edit main.py and then main.py again" = ["main.py"] ∧
  length (extract "f0.py f1.py f2.py f3.py f4.py f5.py f6.py f7.py f8.py f9.py f10.py f11.py")
    = 10%nat.
Proof. vm_compute. repeat split; repeat constructor. Qed.

Example readlines_universal_newlines :
  let lf := String "010"%char "" in
  let cr := String "013"%char "" in
  readlines ("a" +:+ cr +:+ lf +:+ "b" +:+ cr +:+ "c" +:+ lf +:+ lf +:+ "d")
  = ["a" +:+ lf; "b" +:+ lf; "c" +:+ lf; lf; "d"].
Proof. reflexivity. Qed.

Example loads_examples :
  ascii_runtime.loads (message_line "user" "hi")
    = Some (JDict [("role", JStr "user"); ("content", JStr "hi")]) ∧
  ascii_runtime.loads blocks_line
    = Some (JDict [("role", JStr "user");
                   ("content", JList [JDict [("type", JStr "text")]])]) ∧
  ascii_runtime.loads "[1, -20, true, null, {}]"
    = Some (JList [JInt 1; JInt (-20); JBool true; JNull; JDict []]) ∧
  ascii_runtime.loads (ascii_runtime.strip broken_line) = None ∧
  ascii_runtime.loads "{} {}" = None.
Proof. vm_compute. repeat split. Qed.

(** ** More on [analyze_prompt] *)

Lemma append_assoc (a b c : string) : (a +:+ b) +:+ c = a +:+ (b +:+ c).
Proof.
  induction a as [|x a IH]; [done|]. by rewrite !append_cons, IH.
Qed.

Lemma substring_of_trans (k s t : string) :
  substring_of k s → substring_of s t → substring_of k t.
Proof.
  intros (pre1 & post1 & ->) (pre2 & post2 & ->).
  exists (pre2 +:+ pre1), (post1 +:+ post2).
  by rewrite !append_assoc.
Qed.

Lemma hits_nil text keywords :
  hits text keywords = [] ↔ ∀ k, k ∈ keywords → ¬ substring_of k text.
Proof.
  split.
  - intros Hnil k Hk Hsub.
    assert (k ∈ hits text keywords) as Hin
      by (apply elem_of_hits; split; [done | by apply str_contains_spec]).
    rewrite Hnil in Hin. by apply elem_of_nil in Hin.
  - intros Hnone. destruct (hits text keywords) as [|k found] eqn:E; [done|].
    assert (k ∈ hits text keywords) as Hin by (rewrite E; left).
    apply elem_of_hits in Hin as [Hk Hsub].
    apply str_contains_spec in Hsub. by apply Hnone in Hk.
Qed.

Lemma hits_mono text text' keywords k :
  substring_of text text' → k ∈ hits text keywords → k ∈ hits text' keywords.
Proof.
  intros Hsub [Hk Hhit]%elem_of_hits. apply elem_of_hits. split; [done|].
  apply str_contains_spec. eapply substring_of_trans; [|done].
  by apply str_contains_spec.
Qed.

(** X1: a prompt with a medium-risk keyword and no high-risk keyword gets
    salience 0.6, inside the band from 0.5 to 0.85, mode "subtle", no
    emergence, and all the medium-risk keywords that occur, in table
    order. *)
Theorem medium_risk_only_is_subtle `{PyLib} (prompt keyword : string) :
  (∀ k, k ∈ HIGH_RISK_KEYWORDS → ¬ substring_of k (str_lower prompt)) →
  keyword ∈ MEDIUM_RISK_KEYWORDS →
  substring_of keyword (str_lower prompt) →
  ∃ r, analyze_prompt prompt = Normal r ∧
    salience r = 0.6%float ∧
    PrimFloat.leb 0.5 (salience r) = true ∧
    PrimFloat.ltb (salience r) 0.85 = true ∧
    mode r = "subtle" ∧
    should_emerge r = false ∧
    detected_keywords r =
      filter (λ k, str_contains k (str_lower prompt)) MEDIUM_RISK_KEYWORDS ∧
    keyword ∈ detected_keywords r.
Proof.
  intros Hhigh Hin Hsub. rewrite analyze_prompt_cases.
  apply hits_nil in Hhigh. rewrite Hhigh.
  assert (Hhit : keyword ∈ hits (str_lower prompt) MEDIUM_RISK_KEYWORDS)
    by (apply elem_of_hits; split; [done | by apply str_contains_spec]).
  destruct (hits (str_lower prompt) MEDIUM_RISK_KEYWORDS) as [|k medium] eqn:E.
  { by apply elem_of_nil in Hhit. }
  eexists. split; [reflexivity|]. simpl.
  do 5 (split; [reflexivity|]). split; [by rewrite <- E | done].
Qed.

(** X1 at a concrete input. *)
Lemma medium_risk_only_is_subtle_witness :
  ∃ r, analyze_prompt (H := ascii_runtime.ascii_pylib)
         "Refactor the Authentication module" = Normal r ∧
    salience r = 0.6%float ∧
    PrimFloat.leb 0.5 (salience r) = true ∧
    PrimFloat.ltb (salience r) 0.85 = true ∧
    mode r = "subtle" ∧
    should_emerge r = false ∧
    detected_keywords r = ["refactor"; "auth"] ∧
    "auth" ∈ detected_keywords r.
Proof.
  destruct (medium_risk_only_is_subtle (H := ascii_runtime.ascii_pylib)
              "Refactor the Authentication module" "auth")
    as (r & Hr & H1 & H2 & H3 & H4 & H5 & H6 & H7).
  - intros k Hk. apply str_contains_false. revert k Hk.
    apply Forall_forall. vm_compute. repeat constructor.
  - repeat constructor.
  - exists "refactor the ", "entication module". reflexivity.
  - exists r. repeat split; assumption.
Defined.

(** X2: the mode is "silent" exactly when no keyword of either list occurs
    in the lower-cased prompt, and the response is then the base one:
    salience 0.1, no emergence, no reason, nothing detected. *)
Theorem silent_iff_no_keyword `{PyLib} (prompt : string) :
  ∃ r, analyze_prompt prompt = Normal r ∧
    (mode r = "silent" ↔
     ∀ k, k ∈ HIGH_RISK_KEYWORDS ++ MEDIUM_RISK_KEYWORDS →
          ¬ substring_of k (str_lower prompt)) ∧
    (mode r = "silent" →
     r = {| salience := 0.1; should_emerge := false; mode := "silent";
            emergence_reason := None; detected_keywords := [] |}).
Proof.
  rewrite analyze_prompt_cases. eexists. split; [reflexivity|].
  destruct (hits (str_lower prompt) HIGH_RISK_KEYWORDS) as [|k high] eqn:Eh;
    [destruct (hits (str_lower prompt) MEDIUM_RISK_KEYWORDS)
       as [|k medium] eqn:Em|]; unfold response; cbn [mode].
  - split; [|done]. split; [|done]. intros _ k [Hk|Hk]%elem_of_app.
    + revert k Hk. by apply hits_nil.
    + revert k Hk. by apply hits_nil.
  - split; [|done]. split; [done|]. intros Hnone.
    assert (hits (str_lower prompt) MEDIUM_RISK_KEYWORDS = []) as Hnil.
    { apply hits_nil. intros k' Hk'. apply Hnone, elem_of_app. by right. }
    congruence.
  - split; [|done]. split; [done|]. intros Hnone.
    assert (hits (str_lower prompt) HIGH_RISK_KEYWORDS = []) as Hnil.
    { apply hits_nil. intros k' Hk'. apply Hnone, elem_of_app. by left. }
    congruence.
Qed.

Lemma hits_sublist text keywords : hits text keywords `sublist_of` keywords.
Proof. apply sublist_filter. Qed.

(** X3: the detected keywords come from one of the two lists only, in the
    order of that list and without repetition; each of them occurs in the
    lower-cased prompt; there are at most eleven. *)
Theorem detected_keywords_from_one_list `{PyLib} (prompt : string) :
  ∃ r, analyze_prompt prompt = Normal r ∧
    (detected_keywords r `sublist_of` HIGH_RISK_KEYWORDS ∨
     detected_keywords r `sublist_of` MEDIUM_RISK_KEYWORDS) ∧
    NoDup (detected_keywords r) ∧
    (length (detected_keywords r) ≤ 11)%nat ∧
    (∀ k, k ∈ detected_keywords r → substring_of k (str_lower prompt)).
Proof.
  assert (Hh : NoDup HIGH_RISK_KEYWORDS)
    by (apply (bool_decide_unpack _); vm_compute; exact I).
  assert (Hm : NoDup MEDIUM_RISK_KEYWORDS)
    by (apply (bool_decide_unpack _); vm_compute; exact I).
  pose proof (hits_sublist (str_lower prompt) HIGH_RISK_KEYWORDS) as Sh.
  pose proof (hits_sublist (str_lower prompt) MEDIUM_RISK_KEYWORDS) as Sm.
  assert (Eh : ∀ k, k ∈ hits (str_lower prompt) HIGH_RISK_KEYWORDS →
                    substring_of k (str_lower prompt))
    by (intros k [_ Hk]%elem_of_hits; by apply str_contains_spec).
  assert (Em : ∀ k, k ∈ hits (str_lower prompt) MEDIUM_RISK_KEYWORDS →
                    substring_of k (str_lower prompt))
    by (intros k [_ Hk]%elem_of_hits; by apply str_contains_spec).
  rewrite analyze_prompt_cases. eexists. split; [reflexivity|].
  destruct (hits (str_lower prompt) HIGH_RISK_KEYWORDS) as [|k high];
    [destruct (hits (str_lower prompt) MEDIUM_RISK_KEYWORDS) as [|k medium]|];
    unfold response; cbn [detected_keywords].
  - split; [left; apply sublist_nil_l|].
    split; [constructor|]. split; [simpl; lia|]. by intros k ?%elem_of_nil.
  - split; [by right|]. split; [exact (sublist_NoDup _ _ Hm Sm)|].
    split; [|done]. apply sublist_length in Sm. simpl in *. lia.
  - split; [by left|]. split; [exact (sublist_NoDup _ _ Hh Sh)|].
    split; [|done]. apply sublist_length in Sh. simpl in *. lia.
Qed.

(** X4: more text never lowers the assessment: when the lower-cased text of
    one prompt occurs inside that of another, the second gets at least the
    salience of the first, and emerges if the first does. *)
Theorem salience_grows_with_text `{PyLib} (prompt prompt' : string) :
  substring_of (str_lower prompt) (str_lower prompt') →
  ∃ r r', analyze_prompt prompt = Normal r ∧
          analyze_prompt prompt' = Normal r' ∧
          PrimFloat.leb (salience r) (salience r') = true ∧
          (should_emerge r = true → should_emerge r' = true).
Proof.
  intros Hsub. rewrite !analyze_prompt_cases.
  eexists _, _. split; [reflexivity|]. split; [reflexivity|].
  pose proof (λ k, hits_mono _ _ HIGH_RISK_KEYWORDS k Hsub) as Mh.
  pose proof (λ k, hits_mono _ _ MEDIUM_RISK_KEYWORDS k Hsub) as Mm.
  destruct (hits (str_lower prompt) HIGH_RISK_KEYWORDS) as [|k high];
    [destruct (hits (str_lower prompt) MEDIUM_RISK_KEYWORDS) as [|k medium]|].
  - destruct (hits (str_lower prompt') HIGH_RISK_KEYWORDS);
      [destruct (hits (str_lower prompt') MEDIUM_RISK_KEYWORDS)|];
      by split.
  - specialize (Mm k (list_elem_of_here _ _)).
    destruct (hits (str_lower prompt') HIGH_RISK_KEYWORDS);
      [destruct (hits (str_lower prompt') MEDIUM_RISK_KEYWORDS)|];
      [by apply elem_of_nil in Mm | by split..].
  - specialize (Mh k (list_elem_of_here _ _)).
    destruct (hits (str_lower prompt') HIGH_RISK_KEYWORDS);
      [by apply elem_of_nil in Mh | by split].
Qed.

(** X4 at a concrete input. *)
Lemma salience_grows_with_text_witness :
  ∃ r r',
    analyze_prompt (H := ascii_runtime.ascii_pylib) "Update the API docs"
      = Normal r ∧
    analyze_prompt (H := ascii_runtime.ascii_pylib)
      "Please update the API docs and wipe the cache" = Normal r' ∧
    PrimFloat.leb (salience r) (salience r') = true ∧
    (should_emerge r = true → should_emerge r' = true).
Proof.
  apply (salience_grows_with_text (H := ascii_runtime.ascii_pylib)).
  exists "please ", " and wipe the cache". reflexivity.
Defined.

(** ** More on [detect_intention] *)

Lemma any_keyword_in_elem keywords text keyword :
  keyword ∈ keywords → substring_of keyword text →
  any_keyword_in keywords text = true.
Proof.
  intros Hin Hsub%str_contains_spec.
  induction keywords as [|k ks IH]; simpl.
  - by apply elem_of_nil in Hin.
  - apply elem_of_cons in Hin as [<-|Hin]; [by rewrite Hsub|].
    rewrite IH by done. by destruct (str_contains k text).
Qed.

Lemma scan_patterns_priority before intent keywords after keyword text :
  keyword ∈ keywords → substring_of keyword text →
  scan_patterns (before ++ (intent, keywords) :: after) text
  ∈ before.*1 ++ [intent].
Proof.
  intros Hin Hsub. induction before as [|[i ks] before IH]; simpl.
  - rewrite (any_keyword_in_elem keywords text keyword) by done. left.
  - destruct (any_keyword_in ks text); [left | by right].
Qed.

(** X5: the order of the table decides: when a keyword of an entry occurs in
    the lower-cased message, the tag returned is that of this entry or of
    an entry before it in the table, never one after it and never
    "unknown". *)
Theorem earlier_entry_wins `{PyLib}
    (message : string) before intent keywords after keyword :
  INTENT_PATTERNS = before ++ (intent, keywords) :: after →
  keyword ∈ keywords →
  substring_of keyword (str_lower message) →
  detect_intention message ∈ before.*1 ++ [intent].
Proof.
  intros Htable Hin Hsub. unfold detect_intention. rewrite Htable.
  by eapply scan_patterns_priority.
Qed.

(** X5 at a concrete input. *)
Lemma earlier_entry_wins_witness :
  detect_intention (H := ascii_runtime.ascii_pylib)
    "Remove the failing check and fix the build"
  ∈ ["create"; "fix"; "refactor"; "understand"; "delete"].
Proof.
  apply (earlier_entry_wins (H := ascii_runtime.ascii_pylib)
           "Remove the failing check and fix the build"
           (take 4 INTENT_PATTERNS) "delete"
           ["delete"; "remove"; "drop"; "destroy"; "clean up"]
           (drop 5 INTENT_PATTERNS) "remove").
  - reflexivity.
  - repeat constructor.
  - exists "", " the failing check and fix the build". reflexivity.
Defined.

(** X6: the keyword "clean up" of the entry "delete" never decides: a
    message whose lower-cased text contains it contains "clean", a keyword
    of the earlier entry "refactor", and is tagged "create", "fix" or
    "refactor". *)
Theorem clean_up_is_shadowed `{PyLib} (message : string) :
  substring_of "clean up" (str_lower message) →
  detect_intention message ∈ ["create"; "fix"; "refactor"].
Proof.
  intros Hsub.
  apply (scan_patterns_priority (take 2 INTENT_PATTERNS) "refactor"
           ["refactor"; "clean"; "reorganize"; "restructure"; "improve"]
           (drop 3 INTENT_PATTERNS) "clean").
  - repeat constructor.
  - eapply substring_of_trans; [|exact Hsub]. by exists "", " up".
Qed.

(** X6 at a concrete input. *)
Lemma clean_up_is_shadowed_witness :
  detect_intention (H := ascii_runtime.ascii_pylib)
    "Clean up the temp files" ∈ ["create"; "fix"; "refactor"].
Proof.
  apply (clean_up_is_shadowed (H := ascii_runtime.ascii_pylib)).
  exists "", " the temp files". reflexivity.
Defined.

(** ** Invariants of a scan *)

Lemma scan_patterns_tag text : scan_patterns INTENT_PATTERNS text ∈ INTENT_TAGS.
Proof.
  unfold INTENT_PATTERNS, INTENT_TAGS. cbn [scan_patterns fmap list_fmap fst app].
  repeat (match goal with
          | |- context [if ?b then _ else _] => destruct b
          end; [set_solver|]).
  set_solver.
Qed.

Lemma extract_files_touched_bounds `{PyLib} (message : string) :
  (length (extract_files_touched message) ≤ 10)%nat ∧
  NoDup (extract_files_touched message).
Proof.
  rewrite extract_files_touched_unfold. split.
  - rewrite length_take. lia.
  - eapply sublist_NoDup; [apply list_of_set_NoDup | apply sublist_take].
Qed.

Lemma well_formed_event_of `{PyLib} content timestamp project :
  well_formed_event (event_of content timestamp project).
Proof.
  exists (detect_intention content), timestamp, project,
         (extract_files_touched content).
  split; [done|]. split; [apply scan_patterns_tag|].
  apply extract_files_touched_bounds.
Qed.

Lemma grows_refl w : grows w w.
Proof.
  exists [], []. rewrite !app_nil_r. repeat split; done.
Qed.

Lemma grows_trans w1 w2 w3 : grows w1 w2 → grows w2 w3 → grows w1 w3.
Proof.
  intros (evs1 & tr1 & He1 & Hc1 & Hr1 & Ht1 & Hp1 & Hw1 & Hk1)
         (evs2 & tr2 & He2 & Hc2 & Hr2 & Ht2 & Hp2 & Hw2 & Hk2).
  exists (evs1 ++ evs2), (tr1 ++ tr2).
  rewrite He2, He1, Hc2, Hc1, Hr2, Hr1, Ht2, Ht1, !length_app, !app_assoc.
  repeat split; try lia.
  - rewrite posted_app. by apply sublist_app.
  - by apply Forall_app.
  - intros p. specialize (Hk1 p). specialize (Hk2 p). lia.
Qed.

(** A step that only adds to the trace something that is not a post. *)
Lemma grows_trace_only w w' tr :
  tracker w' = tracker w → clock_reads w' = clock_reads w →
  requests w' = requests w → trace w' = trace w ++ tr → posted tr = [] →
  grows w w'.
Proof.
  intros Ht Hc Hr Htr Hp. exists [], tr.
  unfold checkpoint. rewrite Ht, Hc, Hr, Htr, Hp, app_nil_r.
  repeat split; done.
Qed.

Lemma growing_ret {A} (a : A) : growing (ret a).
Proof. intros w. apply grows_refl. Qed.

Lemma growing_raise {A} (e : exn) : growing (@raise A e).
Proof. intros w. apply grows_refl. Qed.

Lemma growing_emit (e : effect) : posted [e] = [] → growing (emit e).
Proof. intros He w. by apply (grows_trace_only _ _ [e]). Qed.

Lemma growing_bind {A B} (m : M A) (k : A → M B) :
  growing m → (∀ a, growing (k a)) → growing (bind m k).
Proof.
  intros Hm Hk w. unfold bind. specialize (Hm w).
  destruct (m w) as [[a|e] w1]; simpl in *; [|done].
  eapply grows_trans; [exact Hm | apply Hk].
Qed.

Lemma growing_try_except {A} (m h : M A) handles :
  growing m → growing h → growing (try_except m handles h).
Proof.
  intros Hm Hh w. unfold try_except. specialize (Hm w).
  destruct (m w) as [[a|e] w1]; simpl in *; [done|].
  destruct (handles e); [|done].
  eapply grows_trans; [exact Hm | apply Hh].
Qed.

Lemma growing_for_each {A} (xs : list A) (body : A → M unit) :
  (∀ x, growing (body x)) → growing (for_each xs body).
Proof.
  intros Hbody. induction xs as [|x xs IH]; simpl.
  - apply growing_ret.
  - apply growing_bind; [apply Hbody | intros _; apply IH].
Qed.

Lemma growing_entry_get entry key default :
  growing (entry_get entry key default).
Proof. destruct entry; (apply growing_ret || apply growing_raise). Qed.

(** Recording an event and sending it, as one step. *)
Lemma grows_record_and_send `{PyLib} env content project w :
  grows w
    (_send_event env
       (event_of content (now_isoformat env (clock_reads w)) project)
       (recorded env content project w)).2.
Proof.
  rewrite _send_event_eq. cbn [snd].
  set (ev := event_of content (now_isoformat env (clock_reads w)) project).
  exists [ev], ([EvClassify content] ++
                send_trace (transport env (requests (recorded env content project w))) ev).
  cbn. rewrite <- app_assoc. repeat split; try done.
  all: try (destruct (transport env (requests w)); cbn;
      [apply sublist_nil_l | done | done]).

  - constructor; [apply well_formed_event_of | constructor].
Qed.

Lemma growing_process_entry `{PyLib} env entry project :
  growing (_process_entry env entry project).
Proof.
  unfold _process_entry.
  apply growing_bind; [apply growing_entry_get|]. intros role.
  destruct (negb _); [apply growing_ret|].
  apply growing_bind; [apply growing_entry_get|]. intros content.
  destruct (negb _); [apply growing_ret|].
  destruct content as [| | | |content| |]; try apply growing_raise.
  intros w. unfold bind, emit. cbn.
  apply (grows_record_and_send env content project w).
Qed.

Lemma growing_process_line `{PyLib} env project line :
  growing (process_line env project line).
Proof.
  unfold process_line. destruct (String.eqb _ _); [apply growing_ret|].
  apply growing_try_except; [|apply growing_ret].
  apply growing_bind; [by apply growing_emit|]. intros _.
  destruct (json_loads _); [apply growing_process_entry | apply growing_raise].
Qed.

Lemma grows_committed file_path stop w :
  checkpoint w file_path ≤ stop →
  grows w (committed file_path (checkpoint w file_path) stop w).
Proof.
  intros Hle.
  exists [], [EvRead file_path (checkpoint w file_path) stop;
              EvCommit file_path stop].
  cbn. rewrite app_nil_r, <- app_assoc.
  repeat split; try done.
  intros p. unfold checkpoint in *. cbn.
  destruct (decide (file_path = p)) as [->|Hne].
  - by rewrite lookup_insert_eq.
  - by rewrite lookup_insert_ne.
Qed.

Lemma growing_process_file `{PyLib} env file file_path project :
  growing (_process_file env file file_path project).
Proof.
  intros w. destruct file as [|content readable].
  - apply (grows_trace_only _ _ [EvWarn file_path]); done.
  - destruct (decide (Z.of_nat (String.length content) ≤ checkpoint w file_path))
      as [Hskip|Hread].
    + rewrite _process_file_skip by done. apply grows_refl.
    + destruct readable.
      * assert (Hlt : checkpoint w file_path
                      < Z.of_nat (String.length content)) by lia.
        destruct (decodable_from (checkpoint w file_path) content) eqn:Hbytes.
        -- rewrite (_process_file_read env content file_path project w
                      Hlt Hbytes).
           apply (grows_trans _ (committed file_path (checkpoint w file_path)
                                   (Z.of_nat (String.length content)) w));
             [apply grows_committed; lia|].
           apply growing_for_each. intros line. apply growing_process_line.
        -- rewrite _process_file_undecodable by done. apply grows_refl.
      * apply (grows_trace_only _ _ [EvWarn file_path]); try done.
        all: unfold _process_file, bind, get_tracker, try_except;
          fold (checkpoint w file_path);
          destruct (Z.leb_spec (Z.of_nat (String.length content))
                      (checkpoint w file_path)); [lia | done].
Qed.

Lemma growing_scan_projects `{PyLib} env found :
  growing (scan_projects env found).
Proof.
  destruct found as [|files walk_fails]; [apply growing_ret|].
  apply growing_bind.
  - apply growing_for_each. intros [[file file_path] project].
    apply growing_process_file.
  - intros _. destruct walk_fails; [apply growing_raise | apply growing_ret].
Qed.

(** X7: a scan, whatever it finds and however it ends, only appends to the
    recorded events, and reads the clock once and makes one request for
    each event it appends. *)
Theorem scan_appends_and_counts `{PyLib} env found w :
  ∃ evs,
    session_events (tracker (scan_projects env found w).2)
    = session_events (tracker w) ++ evs ∧
    clock_reads (scan_projects env found w).2
    = (length evs + clock_reads w)%nat ∧
    requests (scan_projects env found w).2
    = (length evs + requests w)%nat.
Proof.
  destruct (growing_scan_projects env found w)
    as (evs & tr & He & Hc & Hr & _).
  by exists evs.
Qed.

(** X8: what a scan posts is taken from the events it records, in the order
    they were recorded and each at most once: nothing is sent that is not
    kept in [session_events]. *)
Theorem posted_events_are_recorded `{PyLib} env found w :
  ∃ evs tr,
    session_events (tracker (scan_projects env found w).2)
    = session_events (tracker w) ++ evs ∧
    trace (scan_projects env found w).2 = trace w ++ tr ∧
    posted tr `sublist_of` evs.
Proof.
  destruct (growing_scan_projects env found w)
    as (evs & tr & He & _ & _ & Ht & Hp & _).
  by exists evs, tr.
Qed.

(** X9: no scan lowers a checkpoint, whatever the files look like (grown,
    unchanged, shortened, unreadable, gone) and however the scan ends. *)
Theorem checkpoints_never_decrease `{PyLib} env found w file_path :
  checkpoint w file_path ≤ checkpoint (scan_projects env found w).2 file_path.
Proof.
  destruct (growing_scan_projects env found w)
    as (evs & tr & _ & _ & _ & _ & _ & _ & Hk).
  apply Hk.
Qed.

Lemma str_items_strings (files : list string) :
  daimon_routes.str_items (JStr <$> files) = Some files.
Proof.
  induction files as [|f files IH]; [done|]. cbn. by rewrite IH.
Qed.

Lemma well_formed_event_accepted ev :
  well_formed_event ev →
  ∃ tag timestamp project files,
    daimon_routes.ClaudeEvent_of_json (JDict ev)
    = Some {| daimon_routes.event_type := tag;
              daimon_routes.timestamp := timestamp;
              daimon_routes.project := project;
              daimon_routes.files_touched := files;
              daimon_routes.intention := tag |} ∧
    tag ∈ INTENT_TAGS ∧ (length files ≤ 10)%nat ∧ NoDup files.
Proof.
  intros (tag & ts & project & files & -> & Htag & Hlen & Hnodup).
  exists tag, ts, project, files. split; [|done].
  unfold daimon_routes.ClaudeEvent_of_json, daimon_routes.str_field,
    daimon_routes.str_list_field.
  cbn. by rewrite str_items_strings.
Qed.

(** X10: every event a scan records is a body the route [/claude/event]
    accepts as it stands: read as a [ClaudeEvent] it has the same tag as
    [event_type] and as [intention], one of the eight tags, and at most ten
    distinct paths; and the route answers it with status "ok". *)
Theorem recorded_events_fit_the_route `{PyLib} env found w :
  ∃ evs,
    session_events (tracker (scan_projects env found w).2)
    = session_events (tracker w) ++ evs ∧
    ∀ ev, ev ∈ evs →
      ∃ event,
        daimon_routes.ClaudeEvent_of_json (JDict ev) = Some event ∧
        daimon_routes.event_type event = daimon_routes.intention event ∧
        daimon_routes.intention event ∈ INTENT_TAGS ∧
        (length (daimon_routes.files_touched event) ≤ 10)%nat ∧
        NoDup (daimon_routes.files_touched event) ∧
        daimon_routes.receive_claude_event event
        = {| daimon_routes.status := "ok"; daimon_routes.stored := true |}.
Proof.
  destruct (growing_scan_projects env found w)
    as (evs & tr & He & _ & _ & _ & _ & Hwf & _).
  exists evs. split; [done|]. intros ev Hev.
  rewrite Forall_forall in Hwf.
  destruct (well_formed_event_accepted ev (Hwf ev Hev))
    as (tag & ts & project & files & Hparse & Htag & Hlen & Hnodup).
  eexists. split; [exact Hparse|]. by cbn.
Qed.

(** X11: a pass over one file leaves the checkpoints of all other files as
    they were. *)
Theorem pass_touches_its_file_only `{PyLib}
    env file file_path project w other :
  other ≠ file_path →
  positions (tracker (_process_file env file file_path project w).2) !! other
  = positions (tracker w) !! other.
Proof.
  intros Hne. destruct file as [|content readable]; [done|].
  destruct (decide (Z.of_nat (String.length content) ≤ checkpoint w file_path))
    as [Hskip|Hread].
  - by rewrite _process_file_skip.
  - destruct readable.
    + assert (Hlt : checkpoint w file_path
                    < Z.of_nat (String.length content)) by lia.
      destruct (decodable_from (checkpoint w file_path) content) eqn:Hbytes;
        [|by rewrite _process_file_undecodable].
      rewrite (_process_file_read env content file_path project w Hlt Hbytes).
      destruct (framed_for_each
                  (new_lines content (checkpoint w file_path))
                  (process_line env project)
                  (framed_process_line env project)
                  (committed file_path (checkpoint w file_path)
                     (Z.of_nat (String.length content)) w))
        as (tr & _ & _ & -> & _).
      cbn. by rewrite lookup_insert_ne.
    + unfold _process_file, bind, get_tracker, try_except.
      fold (checkpoint w file_path).
      destruct (Z.leb_spec (Z.of_nat (String.length content))
                  (checkpoint w file_path)); [lia | done].
Qed.

(** X11 at a concrete input. *)
Lemma pass_touches_its_file_only_witness :
  let w1 := (_process_file (H := ascii_runtime.ascii_pylib) demo_env
               (Present (message_line "user" "Add tests") true)
               "b.jsonl" "app" world_init).2 in
  positions (tracker (_process_file (H := ascii_runtime.ascii_pylib) demo_env
                        (Present (message_line "user" "Fix the bug") true)
                        session_file "app" w1).2) !! "b.jsonl"
  = positions (tracker w1) !! "b.jsonl".
Proof.
  intros w1.
  apply (pass_touches_its_file_only (H := ascii_runtime.ascii_pylib)).
  discriminate.
Defined.

(** ** One event for each user message *)

(** A quiet line changes nothing but the trace. *)
Lemma process_line_quiet `{PyLib} env project line w :
  quiet_line line →
  ∃ w', process_line env project line w = (Normal (), w') ∧
        same_state w w'.
Proof.
  intros [Hblank | [Hbad | (Hne & d & Hd & Hskip)]].
  - exists w. unfold process_line. unfold blank_line in Hblank.
    rewrite Hblank. done.
  - rewrite process_line_malformed by done. eexists. split; [done|].
    by repeat split.
  - unfold process_line.
    destruct (String.eqb_spec (str_strip line) "") as [|_]; [done|].
    unfold try_except, bind at 1, emit. rewrite Hd.
    unfold _process_entry, entry_get, bind, ret.
    destruct Hskip as [Hrole | Hcontent].
    + rewrite Hrole. cbn. eexists. split; [done|]. by repeat split.
    + destruct (json_is_str _ _); cbn; [rewrite Hcontent; cbn|];
        (eexists; split; [done|]; by repeat split).
Qed.

(** The loop over lines that are quiet or user messages, on a network whose
    failures are swallowed. *)
Lemma for_each_lines `{PyLib} env project lines said :
  (∀ k, benign (transport env k)) →
  Forall2 line_says lines said →
  ∀ w, ∃ w',
    for_each lines (process_line env project) w = (Normal (), w') ∧
    positions (tracker w') = positions (tracker w) ∧
    session_events (tracker w') =
      session_events (tracker w) ++
      events_from env project (clock_reads w) (texts said) ∧
    clock_reads w' = (length (texts said) + clock_reads w)%nat ∧
    requests w' = (length (texts said) + requests w)%nat.
Proof.
  intros Hbenign Hsaid.
  induction Hsaid as [|line s lines said Hline _ IH]; intros w.
  - exists w. cbn. by rewrite app_nil_r.
  - rewrite for_each_cons. destruct s as [content|]; cbn in Hline.
    + destruct (process_line_user env project line content w Hbenign Hline)
        as [tr ->].
      destruct (IH (advanced w
                      [event_of content (now_isoformat env (clock_reads w))
                         project] 1 tr))
        as (w' & -> & Hpos & Hev & Hclock & Hreq).
      exists w'. split; [done|]. cbn in *.
      rewrite Hpos, Hev, Hclock, Hreq, <- app_assoc.
      repeat split; try done; lia.
    + destruct (process_line_quiet env project line w Hline)
        as (w1 & -> & Ht & Hc & Hr).
      destruct (IH w1) as (w' & -> & Hpos & Hev & Hclock & Hreq).
      exists w'. split; [done|]. cbn.
      by rewrite Hpos, Hev, Hclock, Hreq, Ht, Hc, Hr.
Qed.

(** X12: when the new bytes of a file decode as UTF-8, every new line is
    blank, not JSON, an object that is not a user message with a text, or a
    user message with a text, and the network fails only in ways
    [_send_event] swallows, the pass ends normally, records exactly one
    event for each user message with a text, in file order and stamped by
    consecutive readings of the clock, and nothing for the other lines; the
    checkpoint is at the end of the file. *)
Theorem one_event_per_user_message `{PyLib}
    env content file_path project w said :
  (∀ k, benign (transport env k)) →
  checkpoint w file_path < Z.of_nat (String.length content) →
  decodable_from (checkpoint w file_path) content = true →
  Forall2 line_says (new_lines content (checkpoint w file_path)) said →
  ∃ w',
    _process_file env (Present content true) file_path project w
    = (Normal (), w') ∧
    session_events (tracker w') =
      session_events (tracker w) ++
      events_from env project (clock_reads w) (texts said) ∧
    checkpoint w' file_path = Z.of_nat (String.length content).
Proof.
  intros Hbenign Hlt Hbytes Hsaid.
  rewrite (_process_file_read env content file_path project w Hlt Hbytes).
  destruct (for_each_lines env project _ said Hbenign Hsaid
              (committed file_path (checkpoint w file_path)
                 (Z.of_nat (String.length content)) w))
    as (w' & -> & Hpos & Hev & _).
  exists w'. split; [done|]. split; [done|].
  rewrite (checkpoint_positions _ _ _ Hpos). apply checkpoint_committed.
Qed.

(** X12 at a concrete input. *)
Lemma one_event_per_user_message_witness :
  let content := message_line "user" "Fix the bug in main.py"
                 +:+ message_line "assistant" "Done."
                 +:+ nl
                 +:+ broken_line
                 +:+ message_line "user" ""
                 +:+ message_line "user" "Deploy to production" in
  let pylib := ascii_runtime.ascii_pylib in
  ∃ w',
    _process_file (H := pylib) demo_env (Present content true)
      session_file "app" world_init
    = (Normal (), w') ∧
    session_events (tracker w') =
      session_events (tracker world_init) ++
      events_from (H := pylib) demo_env "app" (clock_reads world_init)
        (texts [Some "Fix the bug in main.py"; None; None; None; None;
                Some "Deploy to production"]) ∧
    checkpoint w' session_file = Z.of_nat (String.length content).
Proof.
  intros content pylib.
  apply (one_event_per_user_message (H := pylib)).
  - apply demo_env_benign.
  - vm_compute. reflexivity.
  - vm_compute. reflexivity.
  - change (new_lines content (checkpoint world_init session_file))
      with (readlines content).
    replace (readlines content)
      with [message_line "user" "Fix the bug in main.py";
            message_line "assistant" "Done."; nl; broken_line;
            message_line "user" "";
            message_line "user" "Deploy to production"]
      by (vm_compute; reflexivity).
    constructor; [|constructor; [|constructor; [|constructor;
      [|constructor; [|constructor; [|constructor]]]]]].
    + split; [vm_compute; discriminate|].
      eexists. split; [vm_compute; reflexivity|].
      eexists. repeat split; discriminate.
    + right. right. split; [vm_compute; discriminate|].
      eexists. split; [vm_compute; reflexivity|]. left. reflexivity.
    + left. vm_compute. reflexivity.
    + right. left. split; [vm_compute; discriminate | vm_compute; reflexivity].
    + right. right. split; [vm_compute; discriminate|].
      eexists. split; [vm_compute; reflexivity|]. right. reflexivity.
    + split; [vm_compute; discriminate|].
      eexists. split; [vm_compute; reflexivity|].
      eexists. repeat split; discriminate.
Defined.

(** ** Records that end a pass *)

Lemma process_entry_crash `{PyLib} env entry project w :
  crash_entry entry →
  ∃ w', _process_entry env entry project w = (Raised AttributeError, w') ∧
        same_state w w'.
Proof.
  intros Hcrash. unfold _process_entry, entry_get, bind, ret, raise.
  destruct entry as [| | | | | |d];
    try (exists w; split; [done | by repeat split]).
  destruct Hcrash as (Hrole & Htruthy & Hnot).
  rewrite Hrole. cbn. rewrite Htruthy. cbn.
  destruct (dict_get "content" d (JStr "")) as [| | | |content| |] eqn:E;
    try (exists w; split; [done | by repeat split]).
  by destruct (Hnot content).
Qed.

Lemma process_line_crash `{PyLib} env project line w :
  crash_line line →
  ∃ w', process_line env project line w = (Raised AttributeError, w') ∧
        same_state w w'.
Proof.
  intros (Hne & entry & Hentry & Hcrash). unfold process_line.
  destruct (String.eqb_spec (str_strip line) "") as [|_]; [done|].
  unfold try_except, bind at 1, emit. rewrite Hentry.
  match goal with |- context [_process_entry env entry project ?w1] =>
    destruct (process_entry_crash env entry project w1 Hcrash)
      as (w' & -> & Ht & Hc & Hr)
  end.
  exists w'. split; [done|]. by repeat split.
Qed.

Lemma for_each_app {A} (xs ys : list A) (body : A → M unit) w :
  for_each (xs ++ ys) body w =
  match for_each xs body w with
  | (Normal _, w') => for_each ys body w'
  | (Raised e, w') => (Raised e, w')
  end.
Proof.
  revert w. induction xs as [|x xs IH]; intros w; [done|].
  cbn [app]. rewrite !for_each_cons.
  destruct (body x w) as [[[]|e] w1]; [apply IH | done].
Qed.

(** X13: among new bytes that decode as UTF-8, a line that parses to
    something that is not an object, or to a user message whose content is
    neither empty nor a string, ends the pass with [AttributeError]: the
    events of the user messages before it are recorded, those of the lines
    after it are not, and since the checkpoint is already at the end of the
    file a later pass of the same tracker does not come back to them. *)
Theorem unexpected_record_ends_the_pass `{PyLib}
    env content file_path project w before said bad after :
  (∀ k, benign (transport env k)) →
  checkpoint w file_path < Z.of_nat (String.length content) →
  decodable_from (checkpoint w file_path) content = true →
  new_lines content (checkpoint w file_path) = before ++ bad :: after →
  Forall2 line_says before said →
  crash_line bad →
  ∃ w',
    _process_file env (Present content true) file_path project w
    = (Raised AttributeError, w') ∧
    session_events (tracker w') =
      session_events (tracker w) ++
      events_from env project (clock_reads w) (texts said) ∧
    checkpoint w' file_path = Z.of_nat (String.length content) ∧
    _process_file env (Present content true) file_path project w'
    = (Normal (), w').
Proof.
  intros Hbenign Hlt Hbytes Hlines Hsaid Hbad.
  rewrite (_process_file_read env content file_path project w Hlt Hbytes),
    Hlines.
  rewrite for_each_app.
  destruct (for_each_lines env project _ said Hbenign Hsaid
              (committed file_path (checkpoint w file_path)
                 (Z.of_nat (String.length content)) w))
    as (w1 & -> & Hpos & Hev & _).
  rewrite for_each_cons.
  destruct (process_line_crash env project bad w1 Hbad)
    as (w' & -> & Ht & _).
  exists w'. split; [done|].
  assert (Hcp : checkpoint w' file_path = Z.of_nat (String.length content)).
  { unfold checkpoint. rewrite <- Ht. fold (checkpoint w1 file_path).
    rewrite (checkpoint_positions _ _ _ Hpos). apply checkpoint_committed. }
  split; [by rewrite <- Ht|]. split; [done|].
  apply _process_file_skip. lia.
Qed.

(** X13 at a concrete input. *)
Lemma unexpected_record_ends_the_pass_witness :
  let content := message_line "user" "Deploy to production"
                 +:+ blocks_line +:+ message_line "user" "Add tests" in
  let pylib := ascii_runtime.ascii_pylib in
  ∃ w',
    _process_file (H := pylib) demo_env (Present content true)
      session_file "app" world_init
    = (Raised AttributeError, w') ∧
    session_events (tracker w') =
      session_events (tracker world_init) ++
      events_from (H := pylib) demo_env "app" (clock_reads world_init)
        (texts [Some "Deploy to production"]) ∧
    checkpoint w' session_file = Z.of_nat (String.length content) ∧
    _process_file (H := pylib) demo_env (Present content true)
      session_file "app" w'
    = (Normal (), w').
Proof.
  intros content pylib.
  apply (unexpected_record_ends_the_pass (H := pylib) demo_env content
           session_file "app" world_init
           [message_line "user" "Deploy to production"]
           [Some "Deploy to production"] blocks_line
           [message_line "user" "Add tests"]).
  - apply demo_env_benign.
  - vm_compute. reflexivity.
  - vm_compute. reflexivity.
  - vm_compute. reflexivity.
  - constructor; [|constructor].
    split; [vm_compute; discriminate|].
    eexists. split; [vm_compute; reflexivity|].
    eexists. repeat split; discriminate.
  - split; [vm_compute; discriminate|].
    eexists. split; [vm_compute; reflexivity|].
    split; [reflexivity|]. split; [reflexivity|]. intros c. discriminate.
Defined.

(** ** Files that cannot be read *)

Lemma trace_blind_ret {A} (a : A) : trace_blind (ret a).
Proof. by intros w1 w2 Hw. Qed.

Lemma trace_blind_raise {A} (e : exn) : trace_blind (@raise A e).
Proof. by intros w1 w2 Hw. Qed.

Lemma trace_blind_emit (e : effect) : trace_blind (emit e).
Proof. by intros w1 w2 Hw. Qed.

Lemma trace_blind_get_tracker : trace_blind get_tracker.
Proof. intros w1 w2 (Ht & Hc & Hr). cbn. by rewrite Ht. Qed.

Lemma trace_blind_put_tracker t : trace_blind (put_tracker t).
Proof. by intros w1 w2 (Ht & Hc & Hr). Qed.

Lemma trace_blind_bind {A B} (m : M A) (k : A → M B) :
  trace_blind m → (∀ a, trace_blind (k a)) → trace_blind (bind m k).
Proof.
  intros Hm Hk w1 w2 Hw. unfold bind.
  destruct (Hm w1 w2 Hw) as [Hout Hw'].
  destruct (m w1) as [[a1|e1] w1'], (m w2) as [[a2|e2] w2'];
    cbn in *; try discriminate.
  - injection Hout as ->. by apply Hk.
  - by injection Hout as ->.
Qed.

Lemma trace_blind_try_except {A} (m h : M A) handles :
  trace_blind m → trace_blind h → trace_blind (try_except m handles h).
Proof.
  intros Hm Hh w1 w2 Hw. unfold try_except.
  destruct (Hm w1 w2 Hw) as [Hout Hw'].
  destruct (m w1) as [[a1|e1] w1'], (m w2) as [[a2|e2] w2'];
    cbn in *; try discriminate.
  - done.
  - injection Hout as ->. destruct (handles e2); [by apply Hh | done].
Qed.

Lemma trace_blind_for_each {A} (xs : list A) (body : A → M unit) :
  (∀ x, trace_blind (body x)) → trace_blind (for_each xs body).
Proof.
  intros Hbody. induction xs as [|x xs IH]; cbn.
  - apply trace_blind_ret.
  - apply trace_blind_bind; [apply Hbody | intros _; apply IH].
Qed.

Lemma trace_blind_send_event `{PyLib} env ev : trace_blind (_send_event env ev).
Proof.
  intros w1 w2 (Ht & Hc & Hr). rewrite !_send_event_eq. cbn.
  rewrite Ht, Hc, Hr. done.
Qed.

Lemma trace_blind_process_entry `{PyLib} env entry project :
  trace_blind (_process_entry env entry project).
Proof.
  unfold _process_entry.
  apply trace_blind_bind.
  { destruct entry; (apply trace_blind_ret || apply trace_blind_raise). }
  intros role. destruct (negb _); [apply trace_blind_ret|].
  apply trace_blind_bind.
  { destruct entry; (apply trace_blind_ret || apply trace_blind_raise). }
  intros content. destruct (negb _); [apply trace_blind_ret|].
  destruct content; try apply trace_blind_raise.
  apply trace_blind_bind; [apply trace_blind_emit|].
  intros _ w1 w2 (Ht & Hc & Hr).
  rewrite Ht, Hc. by apply trace_blind_send_event.
Qed.

Lemma trace_blind_process_line `{PyLib} env project line :
  trace_blind (process_line env project line).
Proof.
  unfold process_line. destruct (String.eqb _ _); [apply trace_blind_ret|].
  apply trace_blind_try_except; [|apply trace_blind_ret].
  apply trace_blind_bind; [apply trace_blind_emit|]. intros _.
  destruct (json_loads _);
    [apply trace_blind_process_entry | apply trace_blind_raise].
Qed.

Lemma trace_blind_process_file `{PyLib} env file file_path project :
  trace_blind (_process_file env file file_path project).
Proof.
  unfold _process_file.
  apply trace_blind_bind; [apply trace_blind_get_tracker|]. intros t.
  apply trace_blind_try_except; [|apply trace_blind_emit].
  destruct file as [|content readable]; [apply trace_blind_raise|].
  destruct (_ <=? _); [apply trace_blind_ret|].
  destruct (negb _); [apply trace_blind_raise|].
  destruct (negb _); [apply trace_blind_raise|].
  apply trace_blind_bind; [apply trace_blind_emit|]. intros _.
  apply trace_blind_bind; [apply trace_blind_get_tracker|]. intros t'.
  apply trace_blind_bind; [apply trace_blind_put_tracker|]. intros _.
  apply trace_blind_bind; [apply trace_blind_emit|]. intros _.
  apply trace_blind_for_each. intros line. apply trace_blind_process_line.
Qed.

(** A file that is gone or cannot be opened: the pass returns normally and
    leaves the tracker, the clock and the network alone. *)
Lemma unavailable_pass `{PyLib} env file file_path project w :
  available file = false →
  ∃ w', _process_file env file file_path project w = (Normal (), w') ∧
        same_state w w'.
Proof.
  intros Hfile. destruct file as [|content [|]]; [|done|].
  - unfold _process_file, bind, get_tracker, try_except. cbn.
    eexists. split; [reflexivity|]. by repeat split.
  - unfold _process_file, bind, get_tracker, try_except.
    destruct (_ <=? _); cbn; (eexists; split; [reflexivity|]; by repeat split).
Qed.

(** X14: session files that are gone or cannot be opened do not disturb a
    scan: it ends the same way, with the same checkpoints and events and
    the same use of the clock and the network, as a scan of the listing
    without them, however the walk of the directory ends. *)
Theorem unavailable_files_are_passed_over `{PyLib} env files walk_fails w :
  let run := scan_projects env (Listed files walk_fails) w in
  let run' := scan_projects env
                (Listed (filter (λ f, available f.1.1) files) walk_fails) w in
  run.1 = run'.1 ∧ same_state run.2 run'.2.
Proof.
  cbv zeta. unfold scan_projects.
  set (body := λ '(file, file_path, project),
                 _process_file env file file_path project).
  assert (Hgen : ∀ w1 w2, same_state w1 w2 →
    (for_each files body w1).1
    = (for_each (filter (λ f, available f.1.1) files) body w2).1 ∧
    same_state (for_each files body w1).2
      (for_each (filter (λ f, available f.1.1) files) body w2).2).
  { induction files as [|[[file file_path] project] files IH];
      intros w1 w2 Hw; [done|].
    rewrite filter_cons. cbn [fst]. rewrite for_each_cons.
    destruct (available file) eqn:Hfile.
    - rewrite decide_True by done. rewrite for_each_cons.
      destruct (trace_blind_process_file env file file_path project w1 w2 Hw)
        as [Hout Hw'].
      change (body (file, file_path, project))
        with (_process_file env file file_path project).
      destruct (_process_file env file file_path project w1)
        as [[[]|e1] w1'],
        (_process_file env file file_path project w2) as [[[]|e2] w2'];
        cbn [fst snd] in Hout, Hw'; try discriminate.
      + by apply IH.
      + by injection Hout as ->.
    - rewrite decide_False by (by intros ?).
      change (body (file, file_path, project))
        with (_process_file env file file_path project).
      destruct (unavailable_pass env file file_path project w1 Hfile)
        as (w1' & -> & Ht & Hc & Hr).
      apply IH. destruct Hw as (Ht' & Hc' & Hr').
      repeat split; congruence. }
  destruct (Hgen w w) as [Hout Hw]; [by repeat split|].
  unfold bind.
  destruct (for_each files body w) as [[[]|e1] w1],
    (for_each (filter (λ f, available f.1.1) files) body w)
      as [[[]|e2] w2];
    cbn [fst snd] in Hout, Hw; try discriminate.
  - by destruct walk_fails.
  - by injection Hout as ->.
Qed.

(** ** The exceptions that leave a scan *)

Lemma raises_only_ret {A} Q (a : A) : raises_only Q (ret a).
Proof. by intros w e. Qed.

Lemma raises_only_raise {A} (Q : exn → Prop) e : Q e → raises_only Q (@raise A e).
Proof. intros He w e' [= <-]. done. Qed.

Lemma raises_only_emit Q e : raises_only Q (emit e).
Proof. by intros w e'. Qed.

Lemma raises_only_bind {A B} Q (m : M A) (k : A → M B) :
  raises_only Q m → (∀ a, raises_only Q (k a)) → raises_only Q (bind m k).
Proof.
  intros Hm Hk w e. unfold bind. specialize (Hm w).
  destruct (m w) as [[a|e1] w1]; cbn in *.
  - apply Hk.
  - intros [= <-]. by apply Hm.
Qed.

Lemma raises_only_try_except {A} (Q Q' : exn → Prop) (m h : M A) handles :
  raises_only Q' m →
  (∀ e, Q' e → handles e = false → Q e) →
  raises_only Q h →
  raises_only Q (try_except m handles h).
Proof.
  intros Hm Hq Hh w e. unfold try_except. specialize (Hm w).
  destruct (m w) as [[a|e1] w1]; cbn in *; [done|].
  destruct (handles e1) eqn:He1; [apply Hh|].
  intros [= <-]. apply Hq; [by apply Hm | done].
Qed.

Lemma raises_only_for_each {A} Q (xs : list A) (body : A → M unit) :
  (∀ x, raises_only Q (body x)) → raises_only Q (for_each xs body).
Proof.
  intros Hbody. induction xs as [|x xs IH]; cbn.
  - apply raises_only_ret.
  - apply raises_only_bind; [apply Hbody | intros _; apply IH].
Qed.

Lemma escapes_attribute `{PyLib} env : escapes env AttributeError.
Proof. right. right. by left. Qed.

Lemma raises_only_send_event `{PyLib} env ev :
  raises_only (escapes env) (_send_event env ev).
Proof.
  intros w e. rewrite _send_event_eq. cbn.
  destruct (transport env (requests w)) as [| |e'] eqn:E; cbn; [done..|].
  destruct (is_Exception e') eqn:He'; [done|].
  intros [= <-]. right. right. right. split; [done|]. by exists (requests w).
Qed.

Lemma raises_only_process_entry `{PyLib} env entry project :
  raises_only (escapes env) (_process_entry env entry project).
Proof.
  assert (Hget : ∀ key default,
            raises_only (escapes env) (entry_get entry key default)).
  { intros key default.
    destruct entry;
      (apply raises_only_ret
       || (apply raises_only_raise; apply escapes_attribute)). }
  unfold _process_entry.
  apply raises_only_bind; [apply Hget|]. intros role.
  destruct (negb _); [apply raises_only_ret|].
  apply raises_only_bind; [apply Hget|]. intros content.
  destruct (negb _); [apply raises_only_ret|].
  destruct content;
    try (apply raises_only_raise; apply escapes_attribute).
  apply raises_only_bind; [apply raises_only_emit|]. intros _ w e.
  apply raises_only_send_event.
Qed.

Lemma raises_only_process_line `{PyLib} env project line :
  raises_only (escapes env) (process_line env project line).
Proof.
  unfold process_line. destruct (String.eqb _ _); [apply raises_only_ret|].
  apply (raises_only_try_except _
           (λ e, escapes env e ∨ is_JSONDecodeError e = true));
    [| |apply raises_only_ret].
  - apply raises_only_bind; [apply raises_only_emit|]. intros _.
    destruct (json_loads _) as [entry|e] eqn:E.
    + intros w e He. left. by eapply raises_only_process_entry.
    + apply raises_only_raise.
      destruct (is_JSONDecodeError e) eqn:Hd; [by right|].
      left. right. left. split; [done|]. by eexists.
  - intros e [He | He] Hhandled; [done | congruence].
Qed.

Lemma raises_only_process_file `{PyLib} env file file_path project :
  raises_only (escapes env) (_process_file env file file_path project).
Proof.
  unfold _process_file.
  apply raises_only_bind; [by intros w e|]. intros t.
  apply (raises_only_try_except _
           (λ e, escapes env e ∨ is_OSError e = true));
    [| |apply raises_only_emit].
  - destruct file as [|content readable];
      [apply raises_only_raise; by right|].
    destruct (_ <=? _); [apply raises_only_ret|].
    destruct (negb _); [apply raises_only_raise; by right|].
    destruct (negb _); [apply raises_only_raise; left; by left|].
    apply raises_only_bind; [apply raises_only_emit|]. intros _.
    apply raises_only_bind; [by intros w e|]. intros t'.
    apply raises_only_bind; [by intros w e|]. intros _.
    apply raises_only_bind; [apply raises_only_emit|]. intros _.
    apply raises_only_for_each. intros line w e He. left.
    by eapply raises_only_process_line.
  - intros e [He | He] Hhandled; [done | congruence].
Qed.

Lemma raises_only_scan_projects `{PyLib} env found :
  raises_only (leaves_scan env found) (scan_projects env found).
Proof.
  destruct found as [|files walk_fails]; [apply raises_only_ret|].
  apply raises_only_bind.
  - intros w e He. left. revert He.
    apply raises_only_for_each. intros [[file file_path] project].
    apply raises_only_process_file.
  - intros _. destruct walk_fails; [|apply raises_only_ret].
    apply raises_only_raise. right. by split.
Qed.

(** What leaves the pass over a file is neither an [OSError] nor a
    [JSONDecodeError]: these have their handlers. *)
Lemma escapes_unhandled `{PyLib} env e :
  escapes env e → is_OSError e = false ∧ is_JSONDecodeError e = false.
Proof.
  intros [-> | [[Hd [line Hline]] | [-> | [Hexc _]]]]; [done| |done|].
  - split; [|done]. by eapply json_loads_raises.
  - by destruct e.
Qed.

(** X15: an exception that leaves a scan is of one of five kinds:
    [UnicodeDecodeError], raised by the read of a file on bytes that are
    not UTF-8; what [json.loads] raises on a line other than
    [JSONDecodeError]; [AttributeError], raised on a record that is not a
    user-message object; what the post raises outside [Exception] (a
    cancellation, a keyboard interrupt); and the [OSError] with which the
    walk of the directory fails.  The [OSError] of a session file, the
    [JSONDecodeError] of a line, a missing [httpx] and every failure of the
    post below [Exception] stay inside: what leaves is no
    [JSONDecodeError], and is an [OSError] only when the walk failed. *)
Theorem exceptions_that_leave_a_scan `{PyLib} env found w e :
  (scan_projects env found w).1 = Raised e →
  (e = UnicodeDecodeError ∨
   (is_JSONDecodeError e = false ∧ ∃ line, json_loads line = Raised e) ∨
   e = AttributeError ∨
   (is_Exception e = false ∧ ∃ k, transport env k = Fails e) ∨
   (e = OSError ∧ walk_failed found = true)) ∧
  is_JSONDecodeError e = false ∧
  (is_OSError e = true → walk_failed found = true).
Proof.
  intros He. apply raises_only_scan_projects in He.
  destruct He as [Hesc | [-> Hwalk]].
  - destruct (escapes_unhandled env e Hesc) as [Hos Hjson].
    split; [|split; [done | congruence]].
    destruct Hesc as [? | [? | [? | ?]]]; auto.
  - split; [by do 4 right | by split].
Qed.

(** X15 at a scan of one file whose second record has a list as content. *)
Lemma exceptions_that_leave_a_scan_witness :
  let pylib := ascii_runtime.ascii_pylib in
  let found := Listed [(Present (message_line "user" "Add tests"
                                 +:+ blocks_line) true, session_file, "app")]
                 false in
  let e := AttributeError in
  (scan_projects (H := pylib) demo_env found world_init).1 = Raised e ∧
  (e = UnicodeDecodeError ∨
   (is_JSONDecodeError e = false ∧
    ∃ line, json_loads (PyLib := pylib) line = Raised e) ∨
   e = AttributeError ∨
   (is_Exception e = false ∧ ∃ k, transport demo_env k = Fails e) ∨
   (e = OSError ∧ walk_failed found = true)) ∧
  is_JSONDecodeError e = false ∧
  (is_OSError e = true → walk_failed found = true).
Proof.
  intros pylib found e.
  split; [vm_compute; reflexivity|].
  apply (exceptions_that_leave_a_scan (H := pylib) demo_env found
           world_init e).
  vm_compute. reflexivity.
Defined.

(** Each of the five kinds, at a scan that ends with it; and a scan that
    meets a file that is gone, a file that cannot be opened, a line that is
    not JSON and a refused connection, and returns. *)
Example scans_that_raise :
  let scan pylib env found :=
    (scan_projects (H := pylib) env found world_init).1 in
  let ascii := ascii_runtime.ascii_pylib in
  let one_file content := Listed [(Present content true, session_file, "app")] in
  let cancelling := {| now_isoformat := now_isoformat demo_env;
                       transport := λ _, Fails CancelledError |} in
  scan ascii demo_env (one_file latin1_line false)
    = Raised UnicodeDecodeError ∧
  scan ascii_runtime.limited_pylib demo_env (one_file long_integer_line false)
    = Raised ValueError ∧
  scan ascii demo_env (one_file blocks_line false) = Raised AttributeError ∧
  scan ascii cancelling (one_file (message_line "user" "Add tests") false)
    = Raised CancelledError ∧
  scan ascii demo_env (one_file (message_line "user" "Add tests") true)
    = Raised OSError ∧
  scan ascii demo_env
    (Listed [ (Absent, "gone.jsonl", "app");
              (Present broken_line false, "locked.jsonl", "app");
              (Present (message_line "user" "Add tests" +:+ broken_line
                        +:+ message_line "user" "Fix the bug") true,
               session_file, "app") ] false)
    = Normal ().
Proof. vm_compute. repeat split. Qed.

(** ** Ends of the daemon *)

Import daemon.

Lemma daemon_loop_raises `{PyLib} env turns :
  raises_only (λ e, escapes env e ∨ (e = OSError ∧ walk_failed_in turns)
                    ∨ sleep_raised turns e)
    (daemon_loop env turns).
Proof.
  induction turns as [|t turns IH]; cbn [daemon_loop].
  - apply raises_only_ret.
  - apply raises_only_bind.
    { intros w e He. apply raises_only_scan_projects in He.
      destruct He as [Hesc | [-> Hwalk]]; [by left|].
      right. left. split; [done|]. exists t. split; [left | done]. }
    intros _. apply raises_only_bind.
    { destruct (sleep_raises t) as [e|] eqn:Hsleep;
        [|apply raises_only_ret].
      apply raises_only_raise. right. right. exists t.
      split; [left | done]. }
    intros _ w e He.
    destruct (IH w e He) as [Hesc | [[-> (t' & Hin & Ht')]
                                    | (t' & Hin & Ht')]].
    + by left.
    + right. left. split; [done|]. exists t'. split; [by right | done].
    + right. right. exists t'. split; [by right | done].
Qed.

(** X16: [run_daemon] never ends with [CancelledError]: when it returns
    normally, a cancellation was delivered, during a sleep or during a
    post; and an exception that ends it is one that left the pass over a
    file ([UnicodeDecodeError], what [json.loads] raised other than
    [JSONDecodeError], [AttributeError], or what a post raised outside
    [Exception]), the [OSError] of a walk of the directory that failed, or
    one that a sleep raised.  [main] ends neither with [CancelledError] nor
    with [KeyboardInterrupt]. *)
Theorem daemon_ends_by_cancellation `{PyLib} env turns :
  match (run_daemon env turns).1 with
  | None => True
  | Some (Normal _) => cancelled env turns
  | Some (Raised e) =>
      e ≠ CancelledError ∧
      ((e = UnicodeDecodeError ∨
        (is_JSONDecodeError e = false ∧ ∃ line, json_loads line = Raised e) ∨
        e = AttributeError ∨
        (is_Exception e = false ∧ ∃ k, transport env k = Fails e)) ∨
       (e = OSError ∧ walk_failed_in turns) ∨
       sleep_raised turns e)
  end ∧
  main env true turns ≠ Some (Raised CancelledError) ∧
  main env true turns ≠ Some (Raised KeyboardInterrupt).
Proof.
  pose proof (daemon_loop_raises env turns world_init) as Hraise.
  unfold main, run_daemon.
  destruct (daemon_loop env turns world_init) as [[[]|e] w]; cbn in *.
  - by repeat split.
  - specialize (Hraise e eq_refl).
    destruct (is_CancelledError e) eqn:Hc; cbn.
    + destruct e; try discriminate.
      split; [|by split].
      destruct Hraise as [[Hne | [[_ [line Hline]] | [Hne | [_ Hk]]]]
                         | [[Hne _] | Hsleep]];
        [discriminate| |discriminate|by right|discriminate|by left].
      apply json_loads_raises in Hline as [Hexc _]. discriminate.
    + split; [split; [by intros -> | done]|].
      destruct (is_KeyboardInterrupt e) eqn:Hk; [by split|].
      split; intros [= ->]; discriminate.
Qed.




(** A daemon that scans twice and is cancelled in its second sleep returns
    normally, with both events recorded. *)
Example daemon_cancelled_in_sleep :
  let first := message_line "user" "Fix the bug in main.py" in
  let second := first +:+ message_line "user" "Add tests" in
  let turns :=
    [ {| found := Listed [(Present first true, session_file, "app")] false;
         sleep_raises := None |};
      {| found := Listed [(Present second true, session_file, "app")] false;
         sleep_raises := Some CancelledError |} ] in
  let run := run_daemon (H := ascii_runtime.ascii_pylib) demo_env turns in
  run.1 = Some (Normal ()) ∧
  length (session_events (tracker run.2)) = 2%nat ∧
  checkpoint run.2 session_file = Z.of_nat (String.length second).
Proof. vm_compute. repeat split. Qed.

(** A daemon whose second scan meets a line in Latin-1 ends there, with
    [UnicodeDecodeError]; the checkpoint stays at the end of the first
    snapshot, and the turn after is never taken. *)
Example daemon_ended_by_undecodable_bytes :
  let first := message_line "user" "Fix the bug in main.py" in
  let second := first +:+ latin1_line in
  let third := second +:+ message_line "user" "Add tests" in
  let turns :=
    [ {| found := Listed [(Present first true, session_file, "app")] false;
         sleep_raises := None |};
      {| found := Listed [(Present second true, session_file, "app")] false;
         sleep_raises := None |};
      {| found := Listed [(Present third true, session_file, "app")] false;
         sleep_raises := None |} ] in
  let run := run_daemon (H := ascii_runtime.ascii_pylib) demo_env turns in
  run.1 = Some (Raised UnicodeDecodeError) ∧
  length (session_events (tracker run.2)) = 1%nat ∧
  checkpoint run.2 session_file = Z.of_nat (String.length first) ∧
  read_ranges session_file (trace run.2)
  = [(0, Z.of_nat (String.length first))].
Proof. vm_compute. repeat split. Qed.

(** ** A cancelled post *)

(** X18: when the post of a user message raises outside [Exception] (a
    cancellation, a keyboard interrupt), [_process_entry] ends with that
    exception; the event is already recorded, the clock read and the
    request counted. *)
Theorem cancelled_post_is_not_swallowed `{PyLib}
    env entry content project w e :
  user_record entry content →
  transport env (requests w) = Fails e →
  is_Exception e = false →
  ∃ w',
    _process_entry env entry project w = (Raised e, w') ∧
    session_events (tracker w') =
      session_events (tracker w) ++
      [event_of content (now_isoformat env (clock_reads w)) project] ∧
    positions (tracker w') = positions (tracker w) ∧
    clock_reads w' = S (clock_reads w) ∧
    requests w' = S (requests w).
Proof.
  intros Hentry Hfail Hexc.
  rewrite (_process_entry_user env entry content) by done.
  rewrite _send_event_eq. cbn. rewrite Hfail. cbn. rewrite Hexc.
  eexists. split; [reflexivity|]. done.
Qed.

(** X18 at a concrete input. *)
Lemma cancelled_post_is_not_swallowed_witness :
  let env := {| now_isoformat := now_isoformat demo_env;
                transport := λ _, Fails CancelledError |} in
  let entry := JDict [("role", JStr "user"); ("content", JStr "Add tests")] in
  ∃ w',
    _process_entry (H := ascii_runtime.ascii_pylib) env entry "app" world_init
    = (Raised CancelledError, w') ∧
    session_events (tracker w') =
      session_events (tracker world_init) ++
      [event_of (H := ascii_runtime.ascii_pylib) "Add tests"
         (now_isoformat env (clock_reads world_init)) "app"] ∧
    positions (tracker w') = positions (tracker world_init) ∧
    clock_reads w' = S (clock_reads world_init) ∧
    requests w' = S (requests world_init).
Proof.
  intros env entry.
  apply (cancelled_post_is_not_swallowed (H := ascii_runtime.ascii_pylib)).
  - eexists. repeat split; discriminate.
  - reflexivity.
  - reflexivity.
Defined.

(** ** The route [/quick-check] *)

(** X19: the route [/quick-check] answers every request whose prompt has
    between 1 and 10000 characters with what [analyze_prompt] makes of the
    prompt: the response passes the bounds declared for [salience], and its
    mode and salience go together: "silent" with 0.1, "subtle" with 0.6,
    "emerge" with 0.9.  A request whose prompt is empty or longer fails the
    validation of the request model, and the handler does not run. *)
Theorem quick_check_route_answers_valid_requests `{PyLib} (prompt : string) :
  let n := Z.of_nat (str_len prompt) in
  (1 ≤ n ≤ 10000 →
   ∃ request r,
     daimon_routes.QuickCheckRequest_new prompt = Normal request ∧
     daimon_routes.prompt request = prompt ∧
     daimon_routes.post_quick_check prompt = Normal r ∧
     daimon_routes.quick_check_route request = Normal r ∧
     analyze_prompt prompt = Normal r ∧
     PrimFloat.leb 0 (salience r) = true ∧
     PrimFloat.leb (salience r) 1 = true ∧
     ((mode r = "silent" ∧ salience r = 0.1%float ∧ should_emerge r = false) ∨
      (mode r = "subtle" ∧ salience r = 0.6%float ∧ should_emerge r = false) ∨
      (mode r = "emerge" ∧ salience r = 0.9%float ∧ should_emerge r = true))) ∧
  (n < 1 ∨ 10000 < n →
   daimon_routes.QuickCheckRequest_new prompt = Raised ValidationError ∧
   daimon_routes.post_quick_check prompt = Raised ValidationError).
Proof.
  intros n. unfold daimon_routes.post_quick_check,
    daimon_routes.QuickCheckRequest_new. fold n.
  split.
  - intros [Hlo Hhi].
    destruct (Z.leb_spec 1 n); [|lia]. destruct (Z.leb_spec n 10000); [|lia].
    cbn [andb]. cbv iota.
    exists {| daimon_routes.prompt := prompt |}.
    unfold daimon_routes.quick_check_route. cbn [daimon_routes.prompt].
    rewrite analyze_prompt_cases.
    eexists. split; [reflexivity|]. split; [reflexivity|].
    split; [reflexivity|]. split; [reflexivity|]. split; [reflexivity|].
    destruct (hits _ HIGH_RISK_KEYWORDS) as [|k high];
      [destruct (hits _ MEDIUM_RISK_KEYWORDS) as [|k medium]|]; cbn.
    + split; [done|]. split; [done|]. by left.
    + split; [done|]. split; [done|]. right. by left.
    + split; [done|]. split; [done|]. right. by right.
  - intros Hout.
    destruct (Z.leb_spec 1 n); [destruct (Z.leb_spec n 10000); [lia|]|];
      by cbn.
Qed.

(** The route at a prompt, at the empty prompt, at a prompt of one
    character of two bytes, and at a prompt of 10001 characters. *)
Example quick_check_route_tests :
  let post := daimon_routes.post_quick_check (H := ascii_runtime.ascii_pylib) in
  post "Drop the production database"
    = Normal (response 0.9 true "emerge" ["drop"; "production"]) ∧
  post "" = Raised ValidationError ∧
  post (String "195"%char (String "169"%char ""))
    = Normal (response 0.1 false "silent" []) ∧
  str_len (String "195"%char (String "169"%char "")) = 1%nat ∧
  post (str_repeat "a"%char (Z.to_nat 10000)) = Normal (response 0.1 false "silent" []) ∧
  post (str_repeat "a"%char (Z.to_nat 10001)) = Raised ValidationError.
Proof. vm_compute. repeat split. Qed.

(** ** Lines cut in two *)

Lemma length_append (a b : string) :
  String.length (a +:+ b) = (String.length a + String.length b)%nat.
Proof. induction a as [|c a IH]; [done|]. rewrite append_cons. cbn. by rewrite IH. Qed.

Lemma str_drop_append (a b : string) :
  str_drop (String.length a) (a +:+ b) = b.
Proof. induction a as [|c a IH]; [by destruct b|]. by rewrite append_cons. Qed.

Lemma append_empty_r (a : string) : a +:+ "" = a.
Proof. induction a as [|c a IH]; [done|]. by rewrite append_cons, IH. Qed.

Lemma readlines_from_single line s :
  single_line s = true →
  readlines_from line s =
  if String.eqb (line +:+ s) "" then [] else [line +:+ s].
Proof.
  revert line. induction s as [|c s IH]; intros line Hs.
  - cbn. by rewrite append_empty_r.
  - cbn in Hs. apply andb_prop in Hs as [Hc Hs].
    apply andb_prop in Hc as [Hlf Hcr].
    apply negb_true_iff in Hlf, Hcr.
    cbn [readlines_from]. rewrite Hlf, Hcr, IH by done.
    by rewrite append_assoc.
Qed.

Lemma readlines_from_single_ended line s :
  single_line s = true →
  readlines_from line (s +:+ nl) = [line +:+ s +:+ nl].
Proof.
  revert line. induction s as [|c s IH]; intros line Hs.
  - done.
  - cbn in Hs. apply andb_prop in Hs as [Hc Hs].
    apply andb_prop in Hc as [Hlf Hcr].
    apply negb_true_iff in Hlf, Hcr.
    rewrite append_cons. cbn [readlines_from].
    rewrite Hlf, Hcr, IH by done. by rewrite append_assoc.
Qed.

(** X20: a line that is still being written when a pass reads the file,
    cut between two characters so that both reads decode, and such that
    neither its first part nor its rest is JSON on its own, is lost: the
    pass takes the first part for a line, passes over it and moves the
    checkpoint past it; the next pass starts in the middle of the line and
    passes over the rest.  No event is recorded for the line, and the
    checkpoint ends behind it. *)
Theorem torn_line_is_lost `{PyLib}
    env consumed head tail file_path project w :
  checkpoint w file_path = Z.of_nat (String.length consumed) →
  head ≠ "" →
  single_line head = true →
  single_line tail = true →
  utf8_valid head = true →
  utf8_valid (tail +:+ nl) = true →
  malformed head →
  malformed (tail +:+ nl) →
  let first := consumed +:+ head in
  let second := first +:+ tail +:+ nl in
  let pass1 := _process_file env (Present first true) file_path project w in
  let pass2 := _process_file env (Present second true) file_path project
                 pass1.2 in
  pass1.1 = Normal () ∧
  pass2.1 = Normal () ∧
  read_ranges file_path (trace pass2.2) =
    read_ranges file_path (trace w) ++
    [ (Z.of_nat (String.length consumed), Z.of_nat (String.length first));
      (Z.of_nat (String.length first), Z.of_nat (String.length second)) ] ∧
  session_events (tracker pass2.2) = session_events (tracker w) ∧
  checkpoint pass2.2 file_path = Z.of_nat (String.length second).
Proof.
  intros Hcp Hhead Hsingle Hsingle' Hutf Hutf' Hbad Hbad'
    first second pass1 pass2.
  assert (Hlen1 : String.length first
                  = (String.length consumed + String.length head)%nat)
    by apply length_append.
  assert (Hpos : (0 < String.length head)%nat) by (destruct head; [done | cbn; lia]).
  assert (Hlt1 : checkpoint w file_path < Z.of_nat (String.length first)) by lia.
  assert (Hnew1 : str_drop (Z.to_nat (checkpoint w file_path)) first = head).
  { rewrite Hcp, Nat2Z.id. unfold first. apply str_drop_append. }
  assert (Hbytes1 : decodable_from (checkpoint w file_path) first = true).
  { unfold decodable_from. by rewrite Hnew1. }
  assert (Hlines1 : new_lines first (checkpoint w file_path) = [head]).
  { unfold new_lines, readlines. rewrite Hnew1.
    rewrite readlines_from_single by done.
    change ("" +:+ head) with head.
    destruct (String.eqb_spec head ""); done. }
  assert (Hpass1 : pass1 =
            (Normal (),
             {| tracker := tracker (committed file_path (checkpoint w file_path)
                                      (Z.of_nat (String.length first)) w);
                clock_reads := clock_reads w; requests := requests w;
                trace := trace (committed file_path (checkpoint w file_path)
                                  (Z.of_nat (String.length first)) w)
                         ++ [EvParse (str_strip head)] |})).
  { unfold pass1.
    rewrite (_process_file_read env first file_path project w Hlt1 Hbytes1),
      Hlines1.
    rewrite for_each_cons, process_line_malformed by done. done. }
  set (w1 := pass1.2).
  assert (Hcp1 : checkpoint w1 file_path = Z.of_nat (String.length first)).
  { unfold w1. rewrite Hpass1. apply checkpoint_committed. }
  assert (Hlen2 : String.length second
                  = (String.length first + S (String.length tail))%nat).
  { unfold second. rewrite !length_append. cbn. lia. }
  assert (Hlt2 : checkpoint w1 file_path < Z.of_nat (String.length second)) by lia.
  assert (Hnew2 : str_drop (Z.to_nat (checkpoint w1 file_path)) second
                  = tail +:+ nl).
  { rewrite Hcp1, Nat2Z.id. unfold second. apply str_drop_append. }
  assert (Hbytes2 : decodable_from (checkpoint w1 file_path) second = true).
  { unfold decodable_from. by rewrite Hnew2. }
  assert (Hlines2 : new_lines second (checkpoint w1 file_path) = [tail +:+ nl]).
  { unfold new_lines, readlines. rewrite Hnew2.
    rewrite readlines_from_single_ended by done. reflexivity. }
  assert (Hpass2 : pass2 =
            (Normal (),
             {| tracker := tracker (committed file_path (checkpoint w1 file_path)
                                      (Z.of_nat (String.length second)) w1);
                clock_reads := clock_reads w1; requests := requests w1;
                trace := trace (committed file_path (checkpoint w1 file_path)
                                  (Z.of_nat (String.length second)) w1)
                         ++ [EvParse (str_strip (tail +:+ nl))] |})).
  { unfold pass2. fold w1.
    rewrite (_process_file_read env second file_path project w1 Hlt2 Hbytes2),
      Hlines2.
    rewrite for_each_cons, process_line_malformed by done. done. }
  split; [by rewrite Hpass1|]. split; [by rewrite Hpass2|].
  rewrite Hpass2. cbn [snd trace tracker committed session_events].
  split; [|split].
  - rewrite Hcp1. unfold w1. rewrite Hpass1.
    cbn [snd trace committed]. rewrite Hcp.
    rewrite !read_ranges_app. cbn. rewrite String.eqb_refl.
    by rewrite !app_nil_r, <- app_assoc.
  - unfold w1. by rewrite Hpass1.
  - unfold checkpoint. cbn. by rewrite lookup_insert_eq.
Qed.

(** X20 at a concrete input. *)
Lemma torn_line_is_lost_witness :
  let consumed := message_line "user" "Add tests" in
  let head := "{" +:+ quoted "role" +:+ ": " +:+ quoted "user" +:+ ", "
              +:+ quoted "content" +:+ ": " +:+ dq +:+ "Deploy to pro" in
  let tail := "duction" +:+ dq +:+ "}" in
  let pylib := ascii_runtime.ascii_pylib in
  let w := (_process_file (H := pylib) demo_env (Present consumed true)
              session_file "app" world_init).2 in
  let first := consumed +:+ head in
  let second := first +:+ tail +:+ nl in
  let pass1 := _process_file (H := pylib) demo_env (Present first true)
                 session_file "app" w in
  let pass2 := _process_file (H := pylib) demo_env (Present second true)
                 session_file "app" pass1.2 in
  pass1.1 = Normal () ∧
  pass2.1 = Normal () ∧
  read_ranges session_file (trace pass2.2) =
    read_ranges session_file (trace w) ++
    [ (Z.of_nat (String.length consumed), Z.of_nat (String.length first));
      (Z.of_nat (String.length first), Z.of_nat (String.length second)) ] ∧
  session_events (tracker pass2.2) = session_events (tracker w) ∧
  checkpoint pass2.2 session_file = Z.of_nat (String.length second).
Proof.
  intros consumed head tail pylib w.
  apply (torn_line_is_lost (H := pylib) demo_env consumed head tail
           session_file "app" w).
  - vm_compute. reflexivity.
  - vm_compute. discriminate.
  - vm_compute. reflexivity.
  - vm_compute. reflexivity.
  - vm_compute. reflexivity.
  - vm_compute. reflexivity.
  - split; [vm_compute; discriminate | vm_compute; reflexivity].
  - split; [vm_compute; discriminate | vm_compute; reflexivity].
Defined.

(** The two parts of that witness make up a complete user message, which a
    pass that had seen the line whole would have recorded. *)
Example torn_line_was_a_user_message :
  let head := "{" +:+ quoted "role" +:+ ": " +:+ quoted "user" +:+ ", "
              +:+ quoted "content" +:+ ": " +:+ dq +:+ "Deploy to pro" in
  let tail := "duction" +:+ dq +:+ "}" in
  head +:+ tail +:+ nl = message_line "user" "Deploy to production" ∧
  ascii_runtime.loads (ascii_runtime.strip (head +:+ tail +:+ nl))
  = Some (JDict [("role", JStr "user");
                 ("content", JStr "Deploy to production")]).
Proof. vm_compute. repeat split. Qed.

(** ** Failures that end a scan *)

Lemma scan_projects_listed `{PyLib} env files walk_fails w :
  scan_projects env (Listed files walk_fails) w =
  match for_each files (λ '(file, file_path, project),
                          _process_file env file file_path project) w with
  | (Normal _, w') =>
      if walk_fails then (Raised OSError, w') else (Normal (), w')
  | (Raised e, w') => (Raised e, w')
  end.
Proof.
  unfold scan_projects, bind.
  destruct (for_each _ _ w) as [[[]|e] w']; [by destruct walk_fails | done].
Qed.

(** X21: a session file whose new bytes are not UTF-8 ends the scan with
    [UnicodeDecodeError] when its turn comes: the files listed before it
    have been processed, those listed after it are not looked at, and
    nothing is written for it, so that the pass over the same bytes raises
    again whenever it is repeated. *)
Theorem undecodable_file_stops_the_scan `{PyLib}
    env before content file_path project after walk_fails w w1 :
  scan_projects env (Listed before false) w = (Normal (), w1) →
  checkpoint w1 file_path < Z.of_nat (String.length content) →
  decodable_from (checkpoint w1 file_path) content = false →
  scan_projects env
    (Listed (before ++ (Present content true, file_path, project) :: after)
       walk_fails) w
  = (Raised UnicodeDecodeError, w1) ∧
  _process_file env (Present content true) file_path project w1
  = (Raised UnicodeDecodeError, w1).
Proof.
  intros Hbefore Hlt Hbytes.
  pose proof (_process_file_undecodable env content file_path project w1
                Hlt Hbytes) as Hpass.
  split; [|done].
  rewrite scan_projects_listed in Hbefore. rewrite scan_projects_listed.
  rewrite for_each_app.
  destruct (for_each before _ w) as [[[]|e] w'] eqn:E; [|done].
  injection Hbefore as ->.
  rewrite for_each_cons. by rewrite Hpass.
Qed.

(** X21 at a scan of three files, the second of which holds a line in
    Latin-1. *)
Lemma undecodable_file_stops_the_scan_witness :
  let pylib := ascii_runtime.ascii_pylib in
  let before := [(Present (message_line "user" "Add tests") true,
                  "a.jsonl", "app")] in
  let content := message_line "user" "Fix the bug" +:+ latin1_line in
  let after := [(Present (message_line "user" "Deploy to production") true,
                 "c.jsonl", "app")] in
  let w1 := (scan_projects (H := pylib) demo_env (Listed before false)
               world_init).2 in
  scan_projects (H := pylib) demo_env
    (Listed (before ++ (Present content true, "b.jsonl", "app") :: after)
       false) world_init
  = (Raised UnicodeDecodeError, w1) ∧
  _process_file (H := pylib) demo_env (Present content true) "b.jsonl" "app" w1
  = (Raised UnicodeDecodeError, w1).
Proof.
  intros pylib before content after w1.
  apply (undecodable_file_stops_the_scan (H := pylib) demo_env before content
           "b.jsonl" "app" after false world_init w1).
  - vm_compute. reflexivity.
  - vm_compute. reflexivity.
  - vm_compute. reflexivity.
Defined.


(** A daemon whose projects directory cannot be listed ends at its first
    scan, with the [OSError]. *)
Example daemon_ended_by_a_failed_walk :
  let turns := [ {| found := Listed [] true; sleep_raises := None |};
                 {| found := NoDirectory; sleep_raises := None |} ] in
  (run_daemon (H := ascii_runtime.ascii_pylib) demo_env turns).1
  = Some (Raised OSError) ∧
  main (H := ascii_runtime.ascii_pylib) demo_env true turns
  = Some (Raised OSError).
Proof. vm_compute. repeat split. Qed.

Lemma process_line_unparsed `{PyLib} env project line e w :
  unparsed_line line e →
  process_line env project line w
  = (Raised e,
     {| tracker := tracker w; clock_reads := clock_reads w;
        requests := requests w;
        trace := trace w ++ [EvParse (str_strip line)] |}).
Proof.
  intros (Hne & Hraised & Hkind). unfold process_line.
  destruct (String.eqb_spec (str_strip line) "") as [|_]; [done|].
  unfold try_except, bind, emit, raise. cbn. rewrite Hraised. cbn.
  by rewrite Hkind.
Qed.

(** X23: among new bytes that decode as UTF-8, a line on which [json.loads]
    raises something other than [JSONDecodeError] (the parser giving up on
    the depth of the nesting or on the digits of an integer) ends the pass
    with that exception: the events of the user messages before it are
    recorded, those of the lines after it are not, and since the checkpoint
    is already at the end of the file a later pass of the same tracker does
    not come back to them. *)
Theorem parser_failure_ends_the_pass `{PyLib}
    env content file_path project w before said bad e after :
  (∀ k, benign (transport env k)) →
  checkpoint w file_path < Z.of_nat (String.length content) →
  decodable_from (checkpoint w file_path) content = true →
  new_lines content (checkpoint w file_path) = before ++ bad :: after →
  Forall2 line_says before said →
  unparsed_line bad e →
  ∃ w',
    _process_file env (Present content true) file_path project w
    = (Raised e, w') ∧
    session_events (tracker w') =
      session_events (tracker w) ++
      events_from env project (clock_reads w) (texts said) ∧
    checkpoint w' file_path = Z.of_nat (String.length content) ∧
    _process_file env (Present content true) file_path project w'
    = (Normal (), w').
Proof.
  intros Hbenign Hlt Hbytes Hlines Hsaid Hbad.
  rewrite (_process_file_read env content file_path project w Hlt Hbytes),
    Hlines.
  rewrite for_each_app.
  destruct (for_each_lines env project _ said Hbenign Hsaid
              (committed file_path (checkpoint w file_path)
                 (Z.of_nat (String.length content)) w))
    as (w1 & -> & Hpos & Hev & _).
  rewrite for_each_cons, (process_line_unparsed env project bad e w1 Hbad).
  eexists. split; [reflexivity|].
  assert (Hcp : checkpoint
                  {| tracker := tracker w1; clock_reads := clock_reads w1;
                     requests := requests w1;
                     trace := trace w1 ++ [EvParse (str_strip bad)] |}
                  file_path
                = Z.of_nat (String.length content)).
  { unfold checkpoint. cbn [tracker]. fold (checkpoint w1 file_path).
    rewrite (checkpoint_positions _ _ _ Hpos). apply checkpoint_committed. }
  split; [done|]. split; [done|].
  apply _process_file_skip. lia.
Qed.

(** X23 at a file whose second line is an integer of 4301 digits, on the
    runtime with the limit of 4300. *)
Lemma parser_failure_ends_the_pass_witness :
  let content := message_line "user" "Deploy to production"
                 +:+ long_integer_line +:+ message_line "user" "Add tests" in
  let pylib := ascii_runtime.limited_pylib in
  ∃ w',
    _process_file (H := pylib) demo_env (Present content true)
      session_file "app" world_init
    = (Raised ValueError, w') ∧
    session_events (tracker w') =
      session_events (tracker world_init) ++
      events_from (H := pylib) demo_env "app" (clock_reads world_init)
        (texts [Some "Deploy to production"]) ∧
    checkpoint w' session_file = Z.of_nat (String.length content) ∧
    _process_file (H := pylib) demo_env (Present content true)
      session_file "app" w'
    = (Normal (), w').
Proof.
  intros content pylib.
  apply (parser_failure_ends_the_pass (H := pylib) demo_env content
           session_file "app" world_init
           [message_line "user" "Deploy to production"]
           [Some "Deploy to production"] long_integer_line ValueError
           [message_line "user" "Add tests"]).
  - apply demo_env_benign.
  - vm_compute. reflexivity.
  - vm_compute. reflexivity.
  - vm_compute. reflexivity.
  - constructor; [|constructor].
    split; [vm_compute; discriminate|].
    eexists. split; [vm_compute; reflexivity|].
    eexists. repeat split; discriminate.
  - split; [vm_compute; discriminate|].
    split; [vm_compute; reflexivity | reflexivity].
Defined.
